(** * Sales microservice: authentication resolver and client queries

    A shallow embedding of the request path of the sales microservice:

    - [JS]       the JavaScript string and number primitives the handlers use
                 ([startsWith], [split], [includes], [trim], [parseInt],
                 [Number.prototype.toString], [substring]);
    - [Auth]     the middleware [validateSalesAuth] (middleware/auth.ts);
    - [Sql]      the fragment of T-SQL the model statements rely on
                 (collation, [LIKE], [ORDER BY ... DESC], [OFFSET/FETCH], [TOP]);
    - [Model]    the client model (models/Client.ts);
    - [Routes]   the handlers of routes/clients.ts;
    - [Logging]  the request logger (middleware/logging.ts);
    - [Db]       the query helper (config/database.ts);
    - [Documents] the creation with documents of routes/clients.ts.

    Numbers are integers ([Z]), which is what the handlers compute with as
    long as magnitudes stay below 2^53; a JavaScript number that may be
    [NaN] is an [option Z] with [None] for [NaN].  Instants are integers
    too: epoch milliseconds for [Date], epoch seconds for the [exp] claim.
    Each request is run against one state of the table. *)

From Stdlib Require Import String Ascii List ZArith Lia Bool.
From Stdlib Require Import DecimalString DecimalZ DecimalPos DecimalFacts.
From Stdlib Require Import Sorting.Sorted Sorting.Permutation.
Import ListNotations.

Open Scope string_scope.
Open Scope Z_scope.

(* ================================================================== *)
(** ** JavaScript primitives *)

Module JS.

(** Truthiness of a value that is a string or [undefined]. *)
Definition truthy (v : option string) : bool :=
  match v with
  | Some s => negb (String.eqb s "")
  | None => false
  end.

(** [v || d] on such a value. *)
Definition or_else (v : option string) (d : string) : string :=
  match v with
  | Some s => if String.eqb s "" then d else s
  | None => d
  end.

(** [s.startsWith(p)] *)
Definition startsWith (p s : string) : bool := String.prefix p s.

(** [s.split(sep)] for a one-character separator. *)
Fixpoint split (sep : ascii) (s : string) : list string :=
  match s with
  | EmptyString => [EmptyString]
  | String c s' =>
      if Ascii.eqb c sep then EmptyString :: split sep s'
      else match split sep s' with
           | [] => [String c EmptyString]
           | w :: ws => String c w :: ws
           end
  end.

(** [hay.includes(needle)] *)
Fixpoint includes (needle hay : string) : bool :=
  String.prefix needle hay
  || match hay with
     | EmptyString => false
     | String _ hay' => includes needle hay'
     end.

(** White space as [trim] and [parseInt] see it (the ASCII part). *)
Definition is_space (c : ascii) : bool :=
  match nat_of_ascii c with
  | 9%nat | 10%nat | 11%nat | 12%nat | 13%nat | 32%nat => true
  | _ => false
  end.

Fixpoint trimStart (s : string) : string :=
  match s with
  | EmptyString => EmptyString
  | String c s' => if is_space c then trimStart s' else s
  end.

Fixpoint trimEnd (s : string) : string :=
  match s with
  | EmptyString => EmptyString
  | String c s' =>
      match trimEnd s' with
      | EmptyString => if is_space c then EmptyString else String c EmptyString
      | t => String c t
      end
  end.

(** [s.trim()] *)
Definition trim (s : string) : string := trimEnd (trimStart s).

(** [s.substring(0, n)] *)
Definition substring0 (n : nat) (s : string) : string := String.substring 0 n s.

(** Value of a digit in the given radix (10 or 16). *)
Definition digit (radix : Z) (c : ascii) : option Z :=
  let n := Z.of_nat (nat_of_ascii c) in
  let v :=
    if (48 <=? n) && (n <=? 57) then Some (n - 48)
    else if (97 <=? n) && (n <=? 122) then Some (n - 87)
    else if (65 <=? n) && (n <=? 90) then Some (n - 55)
    else None in
  match v with
  | Some d => if d <? radix then Some d else None
  | None => None
  end.

(** Longest prefix of digits, accumulated most significant digit first. *)
Fixpoint digits (radix acc : Z) (s : string) : Z :=
  match s with
  | EmptyString => acc
  | String c s' =>
      match digit radix c with
      | Some d => digits radix (radix * acc + d) s'
      | None => acc
      end
  end.

(** The magnitude part of [parseInt]: [NaN] when no digit starts it. *)
Definition magnitude (radix : Z) (s : string) : option Z :=
  match s with
  | EmptyString => None
  | String c _ =>
      match digit radix c with
      | Some _ => Some (digits radix 0 s)
      | None => None
      end
  end.

(** The part of [parseInt] after the sign: an optional [0x]/[0X] prefix
    selects radix 16, then comes the longest digit prefix. *)
Definition unsigned (s : string) : option Z :=
  let '(radix, digits) :=
    match s with
    | String "0" (String "x" r) => (16, r)
    | String "0" (String "X" r) => (16, r)
    | _ => (10, s)
    end in
  magnitude radix digits.

(** [parseInt(s)] with no radix argument: leading white space, an optional
    sign, then the unsigned part. *)
Definition parseInt (s : string) : option Z :=
  match trimStart s with
  | String "-" r => option_map Z.opp (unsigned r)
  | String "+" r => unsigned r
  | s1 => unsigned s1
  end.

(** [n.toString()] for an integer [n]: its decimal text.  (JavaScript
    writes an exponent from 10^21 on; the properties that read an id or a
    number back from this text are stated for safe integers.) *)
Definition toString (n : Z) : string := NilZero.string_of_int (Z.to_int n).

(** No character of [s] is [c]. *)
Fixpoint lacks (c : ascii) (s : string) : bool :=
  match s with
  | EmptyString => true
  | String d s' => negb (Ascii.eqb c d) && lacks c s'
  end.

(** [isNaN(x)] *)
Definition isNaN (x : option Z) : bool :=
  match x with Some _ => false | None => true end.

End JS.

(* ================================================================== *)
(** ** The authentication middleware (middleware/auth.ts) *)

Module Auth.

(** [process.env], the three variables the middleware reads. *)
Record Env := {
  MAIN_API_URL : option string;
  AUTH_ENDPOINT : option string;
  JWT_SECRET : option string
}.

(** [interface DecodedToken] *)
Record DecodedToken := {
  userId : Z;
  email : string;
  role : string;
  exp : Z
}.

(** [req.user] *)
Module User.
Record t := mk { id : string; email : string; role : string }.
End User.

(** The [user] object of the backend's answer.  Its [id] is a number or a
    string, or is missing. *)
Inductive id_value := IdNum (n : Z) | IdStr (s : string).

Module Remote.
Record user := mk { id : option id_value; email : string; role : string }.
End Remote.

(** [response.data]: [null], or an object whose [user] may be missing. *)
Inductive response_data :=
| DataNull
| Data (user : option Remote.user).

(** An error of the HTTP client: [error.code], [error.message] and, when an
    answer with an error status was received, [error.response] as its status
    and its body (the JSON text). *)
Record AxiosError := {
  code : option string;
  message : string;
  response : option (Z * string)
}.

(** What a [catch] clause may receive. *)
Inductive thrown :=
| Axios (e : AxiosError)
| Other (msg : string).

(** Outcome of [await axios.post(...)]. *)
Inductive axios_result :=
| Resolved (data : response_data)
| Rejected (err : thrown).

(** Body written with [res.json]. *)
Inductive body :=
| Envelope (success : bool) (message : string)
| Verbatim (data : string).

(** What the middleware does with the request. *)
Inductive outcome :=
| Next (user : User.t)
| Respond (status : Z) (b : body).

(** The calls to the outside the middleware makes, in order. *)
Inductive event :=
| AxiosPost (url token : string)
| JwtVerify (token secret : string).

Definition succeeded (o : outcome) : bool :=
  match o with Next _ => true | Respond _ _ => false end.

Definition id_toString (i : id_value) : string :=
  match i with
  | IdNum n => JS.toString n
  | IdStr s => s
  end.

(** [role !== 'sales' && role !== 'admin'] *)
Definition role_denied (r : string) : bool :=
  negb (String.eqb r "sales") && negb (String.eqb r "admin").

(** [axios.isAxiosError(error)] *)
Definition isAxiosError (t : thrown) : bool :=
  match t with Axios _ => true | Other _ => false end.

(** The guard of the fallback branch:
    [axios.isAxiosError(error) &&
     (error.code === 'ECONNABORTED' || error.message.includes('Network Error'))] *)
Definition fallback_guard (t : thrown) : bool :=
  match t with
  | Axios e =>
      match code e with
      | Some c => String.eqb c "ECONNABORTED"
      | None => false
      end
      || JS.includes "Network Error" (message e)
  | Other _ => false
  end.

(** The error the HTTP client raises when the backend answers with an error
    status (axios 1.x, [settle]): the code is [ERR_BAD_REQUEST] for a 4xx
    status and [ERR_BAD_RESPONSE] for a 5xx status. *)
Definition status_error (status : Z) (data : string) : AxiosError :=
  {| code := if (400 <=? status) && (status <? 500)
             then Some "ERR_BAD_REQUEST"
             else if (500 <=? status) && (status <? 600)
                  then Some "ERR_BAD_RESPONSE"
                  else None;
     message := "Request failed with status code " ++ JS.toString status;
     response := Some (status, data) |}.

Definition forbidden : outcome :=
  Respond 403 (Envelope false "Access denied: Sales role required").

Definition invalid_token : outcome :=
  Respond 401 (Envelope false "Invalid token").

Section Resolver.

(** The two collaborators: the HTTP client, as a function of the URL and
    of the bearer token it sends, and [jwt.verify], which yields the
    decoded claims or throws ([None]). *)
Variable axios_post : string -> string -> axios_result.
Variable jwt_verify : string -> string -> option DecodedToken.

(** Local verification.  The source has this block twice, in the fallback
    branch and in the branch taken when no backend is configured; the
    two differ in log texts only.  [now] is [Date.now()], in
    milliseconds: [decoded.exp < Date.now() / 1000]. *)
Definition verify_locally (env : Env) (now : Z) (token : string)
  : list event * outcome :=
  let secret := JS.or_else (JWT_SECRET env) "" in
  if String.eqb secret "" then ([], invalid_token)
  else
    match jwt_verify token secret with
    | None => ([JwtVerify token secret], invalid_token)
    | Some decoded =>
        ([JwtVerify token secret],
         if exp decoded * 1000 <? now then
           Respond 401 (Envelope false "Token expired")
         else if role_denied (role decoded) then forbidden
         else Next (User.mk (JS.toString (userId decoded))
                            (email decoded) (role decoded)))
    end.

(** The [try] block of the delegation branch: an outcome, or an error
    for the [catch] clause. *)
Definition delegate (url token : string) : outcome + thrown :=
  match axios_post url token with
  | Rejected err => inr err
  | Resolved DataNull =>
      inr (Other "Cannot destructure property 'user'")
  | Resolved (Data None) => inl forbidden
  | Resolved (Data (Some user)) =>
      if role_denied (Remote.role user) then inl forbidden
      else
        match Remote.id user with
        | None => inr (Other "Cannot read properties of undefined")
        | Some i =>
            inl (Next (User.mk (id_toString i) (Remote.email user)
                               (Remote.role user)))
        end
  end.

(** The [catch] clause of the delegation branch. *)
Definition on_delegate_error (env : Env) (now : Z) (token : string)
           (err : thrown) : list event * outcome :=
  if fallback_guard err then verify_locally env now token
  else
    match err with
    | Axios {| response := Some (status, data) |} =>
        ([], Respond status (Verbatim data))
    | _ =>
        ([], Respond 500 (Envelope false "Authentication service error"))
    end.

(** [const token = authHeader.split(' ')[1]] *)
Definition token_of (authHeader : string) : string :=
  nth 1 (JS.split " " authHeader) "".

(** [process.env.MAIN_API_URL && process.env.AUTH_ENDPOINT] *)
Definition delegating (env : Env) : bool :=
  JS.truthy (MAIN_API_URL env) && JS.truthy (AUTH_ENDPOINT env).

(** [`${process.env.MAIN_API_URL}${process.env.AUTH_ENDPOINT}`] *)
Definition auth_url (env : Env) : string :=
  JS.or_else (MAIN_API_URL env) "" ++ JS.or_else (AUTH_ENDPOINT env) "".

(** [validateSalesAuth], from the [Authorization] header. *)
Definition validateSalesAuth (env : Env) (now : Z)
           (authorization : option string) : list event * outcome :=
  match authorization with
  | None => ([], Respond 401 (Envelope false "No token provided"))
  | Some authHeader =>
      if negb (JS.truthy (Some authHeader))
         || negb (JS.startsWith "Bearer " authHeader)
      then ([], Respond 401 (Envelope false "No token provided"))
      else
        let token := token_of authHeader in
        if delegating env
        then
          let url := auth_url env in
          match delegate url token with
          | inl o => ([AxiosPost url token], o)
          | inr err =>
              let '(evs, o) := on_delegate_error env now token err in
              (AxiosPost url token :: evs, o)
          end
        else verify_locally env now token
  end.

End Resolver.

End Auth.

(* ================================================================== *)
(** ** The storage engine: the T-SQL the statements of the model rely on

    The engine is not part of the repository.  What follows is the reading of
    the statements the model sends under the engine's default,
    case-insensitive collation: the spec describes the search as
    case-insensitive, and the code leaves that to the collation. *)

Module Sql.

(** Case folding of the collation (ASCII letters). *)
Definition fold_case (c : ascii) : ascii :=
  let n := nat_of_ascii c in
  if (65 <=? n)%nat && (n <=? 90)%nat then ascii_of_nat (n + 32) else c.

Definition chr_eq (a b : ascii) : bool :=
  Ascii.eqb (fold_case a) (fold_case b).

Fixpoint ci_eqb (a b : string) : bool :=
  match a, b with
  | EmptyString, EmptyString => true
  | String x a', String y b' => chr_eq x y && ci_eqb a' b'
  | _, _ => false
  end.

(** Trailing blanks do not count in a comparison with [=]. *)
Fixpoint rtrim (s : string) : string :=
  match s with
  | EmptyString => EmptyString
  | String c s' =>
      match rtrim s' with
      | EmptyString => if Ascii.eqb c " " then EmptyString
                       else String c EmptyString
      | t => String c t
      end
  end.

(** [a = b] on character data. *)
Definition str_eq (a b : string) : bool := ci_eqb (rtrim a) (rtrim b).

(** [col = @param] where the column may be [NULL]. *)
Definition col_eq (col : option string) (param : string) : bool :=
  match col with
  | Some v => str_eq v param
  | None => false
  end.

(** [col = @param] on an integer column. *)
Definition int_eq (col : option Z) (param : Z) : bool :=
  match col with
  | Some v => v =? param
  | None => false
  end.

(** *** LIKE *)

(** A pattern is a sequence of: [%], [_], a character, a set [[...]] or
    [[^...]] of characters and ranges; an opening bracket that is never
    closed matches nothing. *)
Inductive tok :=
| Any
| One
| Lit (c : ascii)
| Among (negated : bool) (items : list (ascii * ascii))
| Never.

(** The items of a set, up to the closing bracket, and the number of
    characters read, the bracket included. *)
Fixpoint set_items (s : string) : option (list (ascii * ascii) * nat) :=
  match s with
  | EmptyString => None
  | String "]" _ => Some ([], 1%nat)
  | String lo (String "-" (String hi r)) =>
      if Ascii.eqb hi "]" then
        (* a dash before the bracket is a plain character *)
        Some ([(lo, lo); ("-"%char, "-"%char)], 3%nat)
      else
        match set_items r with
        | Some (items, n) => Some ((lo, hi) :: items, (3 + n)%nat)
        | None => None
        end
  | String c r =>
      match set_items r with
      | Some (items, n) => Some ((c, c) :: items, S n)
      | None => None
      end
  end.

(** Reading a pattern; [skip] characters were already taken by a set. *)
Fixpoint scan (skip : nat) (p : string) : list tok :=
  match p with
  | EmptyString => []
  | String c r =>
      match skip with
      | S k => scan k r
      | O =>
          if Ascii.eqb c "%" then Any :: scan 0 r
          else if Ascii.eqb c "_" then One :: scan 0 r
          else if Ascii.eqb c "[" then
            match r with
            | String "^" r' =>
                match set_items r' with
                | Some (items, n) => Among true items :: scan (S n) r
                | None => [Never]
                end
            | _ =>
                match set_items r with
                | Some (items, n) => Among false items :: scan n r
                | None => [Never]
                end
            end
          else Lit c :: scan 0 r
      end
  end.


Definition in_range (c : ascii) (item : ascii * ascii) : bool :=
  let n := nat_of_ascii (fold_case c) in
  (nat_of_ascii (fold_case (fst item)) <=? n)%nat
  && (n <=? nat_of_ascii (fold_case (snd item)))%nat.

Fixpoint like_toks (ts : list tok) : string -> bool :=
  match ts with
  | [] => fun v => match v with EmptyString => true | _ => false end
  | Any :: ts' =>
      fix any (v : string) : bool :=
        like_toks ts' v
        || match v with
           | EmptyString => false
           | String _ v' => any v'
           end
  | One :: ts' =>
      fun v => match v with
               | String _ v' => like_toks ts' v'
               | EmptyString => false
               end
  | Lit c :: ts' =>
      fun v => match v with
               | String d v' => chr_eq c d && like_toks ts' v'
               | EmptyString => false
               end
  | Among negated items :: ts' =>
      fun v => match v with
               | String d v' =>
                   Bool.eqb (existsb (in_range d) items) (negb negated)
                   && like_toks ts' v'
               | EmptyString => false
               end
  | Never :: _ => fun _ => false
  end.

(** [v LIKE pattern] *)
Definition like (pattern v : string) : bool := like_toks (scan 0 pattern) v.

(** [col LIKE @param] where the column may be [NULL]. *)
Definition col_like (col : option string) (pattern : string) : bool :=
  match col with
  | Some v => like pattern v
  | None => false
  end.

(** *** ORDER BY key DESC, [NULL] last; rows with equal keys keep the
    order of the table. *)

Definition key_ge (a b : option Z) : bool :=
  match a, b with
  | _, None => true
  | None, Some _ => false
  | Some x, Some y => y <=? x
  end.

Section Rows.
Context {A : Type}.
Variable key : A -> option Z.

Fixpoint insert_desc (x : A) (l : list A) : list A :=
  match l with
  | [] => [x]
  | y :: l' =>
      if key_ge (key x) (key y) then x :: y :: l'
      else y :: insert_desc x l'
  end.

Definition order_by_desc (l : list A) : list A :=
  fold_right insert_desc [] l.

(** [a] may come before [b] in descending order of the key. *)
Definition desc (a b : A) : Prop := key_ge (key a) (key b) = true.

(** [OFFSET o ROWS FETCH NEXT f ROWS ONLY]: the engine refuses a negative
    offset, a row count below one, and a text that is not a number. *)
Definition offset_fetch (o f : option Z) (rows : list A)
  : option (list A) :=
  match o, f with
  | Some o', Some f' =>
      if (0 <=? o') && (1 <=? f')
      then Some (firstn (Z.to_nat f') (skipn (Z.to_nat o') rows))
      else None
  | _, _ => None
  end.

(** [SELECT TOP n]: the engine refuses a negative count and a text that
    is not a number. *)
Definition top (n : option Z) (rows : list A) : option (list A) :=
  match n with
  | Some n' => if 0 <=? n' then Some (firstn (Z.to_nat n') rows) else None
  | None => None
  end.
End Rows.

End Sql.

(* ================================================================== *)
(** ** The client model (models/Client.ts) *)

Module Model.

(** [interface Client]: the columns the statements and the handlers read;
    the remaining optional columns travel in [rest], untouched.  A request
    body is cast to [Client] unchecked, so every property may be missing. *)
Record Client := {
  id : option string;
  customer_type : option string;
  product : option string;
  insurance_provider : option string;
  client_name : option string;
  mobile_no : option string;
  email : option string;
  policy_no : option string;
  sales_rep_id : option Z;
  created_at : option Z;
  rest : list (string * string)
}.

Definition with_id (v : option string) (c : Client) : Client :=
  {| id := v;
     customer_type := customer_type c; product := product c;
     insurance_provider := insurance_provider c;
     client_name := client_name c; mobile_no := mobile_no c;
     email := email c; policy_no := policy_no c;
     sales_rep_id := sales_rep_id c; created_at := created_at c;
     rest := rest c |}.

Definition with_sales_rep_id (v : option Z) (c : Client) : Client :=
  {| id := id c;
     customer_type := customer_type c; product := product c;
     insurance_provider := insurance_provider c;
     client_name := client_name c; mobile_no := mobile_no c;
     email := email c; policy_no := policy_no c;
     sales_rep_id := v; created_at := created_at c;
     rest := rest c |}.

Definition with_created_at (v : option Z) (c : Client) : Client :=
  {| id := id c;
     customer_type := customer_type c; product := product c;
     insurance_provider := insurance_provider c;
     client_name := client_name c; mobile_no := mobile_no c;
     email := email c; policy_no := policy_no c;
     sales_rep_id := sales_rep_id c; created_at := v;
     rest := rest c |}.

(** The [clients] table, in insertion order. *)
Definition table := list Client.

(** A promise settled: a value, or a thrown error. *)
Inductive result (A : Type) :=
| Ok (a : A)
| Throw (msg : string).
Arguments Ok {A} a.
Arguments Throw {A} msg.

(** [WHERE sales_rep_id = @param0] *)
Definition owned_by (n : Z) (r : Client) : bool :=
  Sql.int_eq (sales_rep_id r) n.

(** The search condition of the two statements of the listing:
    [client_name LIKE @param1 OR email LIKE @param1 OR ...]. *)
Definition search_hit (pattern : string) (r : Client) : bool :=
  Sql.col_like (client_name r) pattern
  || Sql.col_like (email r) pattern
  || Sql.col_like (mobile_no r) pattern
  || Sql.col_like (product r) pattern
  || Sql.col_like (insurance_provider r) pattern
  || Sql.col_like (policy_no r) pattern.

(** [search && search.trim() !== ''] *)
Definition searching (search : option string) : bool :=
  match search with
  | Some s => negb (String.eqb s "") && negb (String.eqb (JS.trim s) "")
  | None => false
  end.

(** The [WHERE] clause of the listing, for the sales rep [n]. *)
Definition listing_where (n : Z) (search : option string) (r : Client)
  : bool :=
  if searching search
  then owned_by n r
       && search_hit ("%" ++ JS.or_else search "" ++ "%") r
  else owned_by n r.

(** [checkDuplicate]: [SELECT COUNT( * ) ... WHERE client_name = @param0 AND
    insurance_provider = @param1], then [count > 0]. *)
Definition checkDuplicate (tbl : table) (clientName insuranceProvider : string)
  : bool :=
  let count :=
    Z.of_nat (length (filter
      (fun r => Sql.col_eq (client_name r) clientName
                && Sql.col_eq (insurance_provider r) insuranceProvider)
      tbl)) in
  0 <? count.

(** [getClientsByCreator]: [SELECT TOP limit * ... WHERE sales_rep_id =
    @param0 ORDER BY created_at DESC]. *)
Definition getClientsByCreator (tbl : table) (salesRepId : string)
           (limit : option Z) : result (list Client) :=
  match JS.parseInt salesRepId with
  | None => Throw ("Invalid sales rep ID: " ++ salesRepId)
  | Some numericSalesRepId =>
      match Sql.top limit
              (Sql.order_by_desc created_at
                 (filter (owned_by numericSalesRepId) tbl)) with
      | Some rows => Ok rows
      | None => Throw "storage"
      end
  end.

(** [(page - 1) * pageSize] on numbers that may be [NaN]. *)
Definition offset_of (page pageSize : option Z) : option Z :=
  match page, pageSize with
  | Some p, Some k => Some ((p - 1) * k)
  | _, _ => None
  end.

(** [getAllClientsBySalesRep]: the count statement, then the data
    statement; both carry the same [WHERE] clause. *)
Definition getAllClientsBySalesRep (tbl : table) (salesRepId : string)
           (page pageSize : option Z) (search : option string)
  : result (list Client * Z) :=
  match JS.parseInt salesRepId with
  | None => Throw ("Invalid sales rep ID: " ++ salesRepId)
  | Some numericSalesRepId =>
      let offset := offset_of page pageSize in
      let matching := filter (listing_where numericSalesRepId search) tbl in
      let total := Z.of_nat (length matching) in
      match Sql.offset_fetch offset pageSize
              (Sql.order_by_desc created_at matching) with
      | Some clients => Ok (clients, total)
      | None => Throw "storage"
      end
  end.

(** [const clientId = clientData.id || `C${uuidv4().substring(0, 8)}`] *)
Definition clientId (clientData : Client) (uuid : string) : string :=
  JS.or_else (id clientData) ("C" ++ JS.substring0 8 uuid).

(** [{ id: clientId, ...clientData, created_at: new Date() }]: the spread
    keeps an [id] that [clientData] carries. *)
Definition dataWithId (clientData : Client) (uuid : string) (now : Z)
  : Client :=
  with_created_at (Some now)
    (with_id (Some (match id clientData with
                    | Some own => own
                    | None => clientId clientData uuid
                    end)) clientData).

Section Insert.

(** Whether the engine takes a row into the table: the checks of the
    schema (column names and types, keys, NOT NULL), which the
    repository does not hold. *)
Variable accepts : table -> Client -> bool.

(** [createClient].  [uuid] is the value of [uuidv4()] and [now] that of
    [new Date()].  The first value of the object inserted, its id, is
    [@param0] of the [SELECT] that follows the [INSERT]. *)
Definition createClient (tbl : table) (clientData : Client)
           (uuid : string) (now : Z) : table * result Client :=
  let dataWithId := dataWithId clientData uuid now in
  let param0 := match id dataWithId with Some i => i | None => "" end in
  if accepts tbl dataWithId then
    let tbl' := (tbl ++ [dataWithId])%list in
    match filter (fun r => Sql.col_eq (id r) param0) tbl' with
    | r :: _ => (tbl', Ok r)
    | [] => (tbl', Throw "Failed to create client")
    end
  else (tbl, Throw "storage").

End Insert.

End Model.

(* ================================================================== *)
(** ** The handlers (routes/clients.ts) *)

Module Routes.
Import Model.

Record pagination := {
  page : option Z;
  pageSize : option Z;
  total : Z;
  totalPages : option Z;
  hasNextPage : bool;
  hasPrevPage : bool
}.

(** The JSON bodies the handlers write. *)
Inductive payload :=
| Message (success : bool) (message : string)
| Created (message : string) (data : Client)
| Recent (count : Z) (data : list Client)
| Paged (data : list Client) (p : pagination).

Record response := { status : Z; body : payload }.

Definition reply (s : Z) (b : payload) : response :=
  {| status := s; body := b |}.

Definition missing_fields : string :=
  "Missing required fields: customer_type, product, insurance_provider, client_name, mobile_no".

(** [!req.user || !req.user.id] *)
Definition no_user_id (user : option Auth.User.t) : bool :=
  match user with
  | Some u => String.eqb (Auth.User.id u) ""
  | None => true
  end.

Definition user_id (user : option Auth.User.t) : string :=
  match user with
  | Some u => Auth.User.id u
  | None => ""
  end.

(** [req.query.x ? parseInt(req.query.x) : d] *)
Definition query_int (q : option string) (d : Z) : option Z :=
  if JS.truthy q then JS.parseInt (JS.or_else q "") else Some d.

(** [Math.ceil(total / pageSize)]; not a finite number when [pageSize] is
    zero or [NaN]. *)
Definition ceil_div (total : Z) (pageSize : option Z) : option Z :=
  match pageSize with
  | Some k => if k =? 0 then None else Some (- ((- total) / k))
  | None => None
  end.

(** [a < b] and [a > b] on numbers that may be [NaN]. *)
Definition num_lt (a b : option Z) : bool :=
  match a, b with
  | Some x, Some y => x <? y
  | _, _ => false
  end.

Section Handlers.

Variable accepts : table -> Client -> bool.

(** [router.post('/')] *)
Definition post_client (tbl : table) (user : option Auth.User.t)
           (body : Client) (uuid : string) (now : Z) : table * response :=
  if negb (JS.truthy (customer_type body))
     || negb (JS.truthy (product body))
     || negb (JS.truthy (insurance_provider body))
     || negb (JS.truthy (client_name body))
     || negb (JS.truthy (mobile_no body))
  then (tbl, reply 400 (Message false missing_fields))
  else if checkDuplicate tbl (JS.or_else (client_name body) "")
            (JS.or_else (insurance_provider body) "")
  then (tbl, reply 409 (Message false
          "A client with this name and insurance provider already exists"))
  else if no_user_id user
  then (tbl, reply 401 (Message false
          "User ID not found in authentication data"))
  else
    match JS.parseInt (user_id user) with
    | None => (tbl, reply 500 (Message false "Invalid sales rep ID format"))
    | Some salesRepId =>
        let clientData := with_sales_rep_id (Some salesRepId) body in
        match createClient accepts tbl clientData uuid now with
        | (tbl', Ok newClient) =>
            (tbl', reply 201 (Created "Client created successfully"
                                      newClient))
        | (tbl', Throw _) =>
            (tbl', reply 500 (Message false "Failed to create client"))
        end
    end.

(** [router.get('/recent')] *)
Definition get_recent (tbl : table) (user : option Auth.User.t)
           (limit_q : option string) : response :=
  let limit := query_int limit_q 10 in
  if no_user_id user
  then reply 401 (Message false "User ID not found in authentication data")
  else
    match JS.parseInt (user_id user) with
    | None => reply 500 (Message false "Invalid sales rep ID format")
    | Some salesRepId =>
        match getClientsByCreator tbl (JS.toString salesRepId) limit with
        | Ok clients =>
            reply 200 (Recent (Z.of_nat (length clients)) clients)
        | Throw _ =>
            reply 500 (Message false "Failed to get recent clients")
        end
    end.

(** [router.get('/')] *)
Definition get_clients (tbl : table) (user : option Auth.User.t)
           (page_q pageSize_q search : option string) : response :=
  let page := query_int page_q 1 in
  let pageSize := query_int pageSize_q 10 in
  if no_user_id user
  then reply 401 (Message false "User ID not found in authentication data")
  else
    match getAllClientsBySalesRep tbl (user_id user) page pageSize
            search with
    | Ok (clients, total) =>
        let totalPages := ceil_div total pageSize in
        reply 200 (Paged clients
          {| page := page; pageSize := pageSize; total := total;
             totalPages := totalPages;
             hasNextPage := num_lt page totalPages;
             hasPrevPage := num_lt (Some 1) page |})
    | Throw _ => reply 500 (Message false "Failed to get clients")
    end.

End Handlers.





End Routes.

(* ================================================================== *)
(** ** The search as the spec words it *)

Module Spec.





(** A required field that is absent or empty. *)
Definition blank (field : option string) : Prop :=
  field = None \/ field = Some "".

(** The five required fields are present and not empty. *)
Definition complete (body : Model.Client) : bool :=
  JS.truthy (Model.customer_type body)
  && JS.truthy (Model.product body)
  && JS.truthy (Model.insurance_provider body)
  && JS.truthy (Model.client_name body)
  && JS.truthy (Model.mobile_no body).



End Spec.

(* ================================================================== *)
(** ** Sample data *)

Module Samples.
Import Model.

Definition env_remote : Auth.Env :=
  {| Auth.MAIN_API_URL := Some "http://localhost:5000";
     Auth.AUTH_ENDPOINT := Some "/api/auth/validate";
     Auth.JWT_SECRET := Some "s3cret" |}.

Definition env_local : Auth.Env :=
  {| Auth.MAIN_API_URL := None;
     Auth.AUTH_ENDPOINT := None;
     Auth.JWT_SECRET := Some "s3cret" |}.

Definition claims (expiry : Z) : Auth.DecodedToken :=
  {| Auth.userId := 7; Auth.email := "rep@example.com";
     Auth.role := "sales"; Auth.exp := expiry |}.

(** A verifier that knows two tokens signed with ["s3cret"]: ["good"],
    which expires at second 2000, and ["old"], which expired at second 1. *)
Definition verify (token secret : string) : option Auth.DecodedToken :=
  if String.eqb secret "s3cret" then
    if String.eqb token "good" then Some (claims 2000)
    else if String.eqb token "old" then Some (claims 1)
    else None
  else None.

(** The backend refuses the connection. *)
Definition refused : Auth.AxiosError :=
  {| Auth.code := Some "ECONNREFUSED";
     Auth.message := "connect ECONNREFUSED 127.0.0.1:5000";
     Auth.response := None |}.

(** The call runs into its 5000 ms limit. *)
Definition timed_out : Auth.AxiosError :=
  {| Auth.code := Some "ECONNABORTED";
     Auth.message := "timeout of 5000ms exceeded";
     Auth.response := None |}.

Definition post_refused (url token : string) : Auth.axios_result :=
  Auth.Rejected (Auth.Axios refused).

Definition post_timed_out (url token : string) : Auth.axios_result :=
  Auth.Rejected (Auth.Axios timed_out).

Definition post_401 (url token : string) : Auth.axios_result :=
  Auth.Rejected (Auth.Axios (Auth.status_error 401
    "{ success: false, message: 'Invalid or expired token' }")).

(** A backend that answers every token with the same sales user. *)
Definition post_accepts (url token : string) : Auth.axios_result :=
  Auth.Resolved (Auth.Data (Some
    (Auth.Remote.mk (Some (Auth.IdNum 7)) "rep@example.com" "sales"))).

Definition rep (i : string) : option Auth.User.t :=
  Some (Auth.User.mk i "rep@example.com" "sales").

Definition client (i name provider : string) (owner stamp : Z) : Client :=
  {| id := Some i; customer_type := Some "individual";
     product := Some "motor"; insurance_provider := Some provider;
     client_name := Some name; mobile_no := Some "0771234567";
     email := None; policy_no := None;
     sales_rep_id := Some owner; created_at := Some stamp; rest := [] |}.

Definition request (name provider : string) : Client :=
  {| id := None; customer_type := Some "individual";
     product := Some "motor"; insurance_provider := Some provider;
     client_name := Some name; mobile_no := Some "0771234567";
     email := None; policy_no := None;
     sales_rep_id := Some 999; created_at := None; rest := [] |}.

(** The same request without its mobile number. *)
Definition request_without_mobile (name provider : string) : Client :=
  {| id := None; customer_type := Some "individual";
     product := Some "motor"; insurance_provider := Some provider;
     client_name := Some name; mobile_no := None;
     email := None; policy_no := None;
     sales_rep_id := Some 999; created_at := None; rest := [] |}.


Definition clients : table :=
  [ client "C00000001" "Acme Corp" "Test Insurance Co" 7 100;
    client "C00000002" "Bolt Ltd" "Test Insurance Co" 8 200;
    client "C00000003" "Cedar Inc" "Other Insurance" 7 300 ].

Definition uuid : string := "1b9d6bcd-bbfd-4b2d-9b5d-ab8dfbbd4bed".

(** An engine with no constraint of its own. *)
Definition accepts_all (tbl : table) (row : Client) : bool := true.

End Samples.

(* ================================================================== *)
(** ** The request logger (middleware/logging.ts) *)

Module Logging.

(** A JSON value, as a body parser leaves it in [req.body]. *)
#[warnings="-register-all"] Inductive json :=
| JNull
| JBool (b : bool)
| JNum (n : Z)
| JStr (s : string)
| JArr (items : list json)
| JObj (fields : list (string * json)).

(** Truthiness of a JSON value. *)
Definition truthy (v : json) : bool :=
  match v with
  | JNull => false
  | JBool b => b
  | JNum n => negb (n =? 0)
  | JStr s => negb (String.eqb s "")
  | JArr _ => true
  | JObj _ => true
  end.

(** An object, as its properties in order. *)
Definition object := list (string * json).

(** [o[k]]: the property, or [undefined]. *)
Fixpoint get (k : string) (o : object) : option json :=
  match o with
  | [] => None
  | (k', v) :: o' => if String.eqb k' k then Some v else get k o'
  end.

(** [o[k] = v] on a property the object has: the value changes in place. *)
Fixpoint set (k : string) (v : json) (o : object) : object :=
  match o with
  | [] => [(k, v)]
  | (k', v') :: o' =>
      if String.eqb k' k then (k', v) :: o' else (k', v') :: set k v o'
  end.

Fixpoint indexed (i : Z) (items : list json) : object :=
  match items with
  | [] => []
  | v :: items' => (JS.toString i, v) :: indexed (i + 1) items'
  end.

Fixpoint chars (i : Z) (s : string) : object :=
  match s with
  | EmptyString => []
  | String c s' =>
      (JS.toString i, JStr (String c EmptyString)) :: chars (i + 1) s'
  end.

(** [{ ...v }]: the own properties of an object, the items of an array
    under their indices, the characters of a string; nothing for the other
    values. *)
Definition spread (v : json) : object :=
  match v with
  | JObj fields => fields
  | JArr items => indexed 0 items
  | JStr s => chars 0 s
  | _ => []
  end.

(** [if (o[k]) o[k] = '[REDACTED]'] *)
Definition redact (k : string) (o : object) : object :=
  match get k o with
  | Some v => if truthy v then set k (JStr "[REDACTED]") o else o
  | None => o
  end.

(** [sanitizedBody] *)
Definition sanitizedBody (body : json) : object :=
  redact "token" (redact "password" (spread body)).

(** What the logger writes. *)
Inductive line :=
| Incoming (time : Z) (method url : string)
| Body (sanitized : object)
| Finished (time : Z) (method url : string) (statusCode duration : Z)
| Failure (time : Z) (method url name message : string).

(** [requestLogger], up to its call of [next()]: the lines written for a
    request that arrives at [start] ([Date.now()]). *)
Definition requestLogger (start : Z) (method url : string)
           (body : option json) : list line :=
  Incoming start method url
  :: match body with
     | Some b =>
         if negb (String.eqb method "GET") && truthy b
         then [Body (sanitizedBody b)]
         else []
     | None => []
     end.

(** The listener [requestLogger] leaves on ['finish']. *)
Definition on_finish (start : Z) (method url : string)
           (finish statusCode : Z) : line :=
  Finished finish method url statusCode (finish - start).

(** [errorLogger], up to its call of [next(err)]. *)
Definition errorLogger (time : Z) (method url name message : string)
  : line :=
  Failure time method url name message.

End Logging.

(* ================================================================== *)
(** ** The query helper (config/database.ts) *)

Module Db.

(** [text.replace(/\?/g, (_, i) => `@param${i}`)]: the second argument of
    the callback is the offset of the match in [text]. *)
Fixpoint parameterize (offset : Z) (text : string) : string :=
  match text with
  | EmptyString => EmptyString
  | String c text' =>
      if Ascii.eqb c "?"
      then "@param" ++ JS.toString offset ++ parameterize (offset + 1) text'
      else String c (parameterize (offset + 1) text')
  end.

(** [params.forEach((param, index) => request.input(`param${index}`, param))]:
    the inputs of the request, by name. *)
Fixpoint inputs {A : Type} (index : Z) (params : list A) : list (string * A) :=
  match params with
  | [] => []
  | p :: params' => ("param" ++ JS.toString index, p) :: inputs (index + 1) params'
  end.

(** What [db.query(text, params)] hands to the driver. *)
Definition query {A : Type} (text : string) (params : list A)
  : string * list (string * A) :=
  (parameterize 0 text, inputs 0 params).

(** The name a marker [@name] of a statement refers to has an input. *)
Definition bound {A : Type} (name : string) (ins : list (string * A)) : bool :=
  existsb (fun p => String.eqb (fst p) name) ins.

End Db.

(* ================================================================== *)
(** ** Listings, page by page *)

Module Pages.
Import Model.

(** The rows of a settled listing; none when it threw. *)
Definition clients_of (r : result (list Client * Z)) : list Client :=
  match r with
  | Ok (clients, _) => clients
  | Throw _ => []
  end.

(** The row a creation inserts for the sales rep [n]. *)
Definition new_row (n : Z) (body : Client) (uuid : string) (now : Z)
  : Client :=
  dataWithId (with_sales_rep_id (Some n) body) uuid now.


End Pages.

(* ================================================================== *)
(** ** Creation with documents (routes/clients.ts, [/with-documents]) *)

Module Documents.
Import Model Routes.

(** The file fields [upload.fields] lets through. *)
Inductive doc_field :=
| nic_proof | dob_proof | business_registration | svat_proof | vat_proof
| coverage_proof | sum_insured_proof | policy_fee_invoice
| vat_fee_debit_note | payment_receipt_proof | policyholder_doc
| vehicle_number_doc | proposal_form_doc | quotation_doc | cr_copy_doc
| schedule_doc | invoice_debit_note_doc | payment_receipt_doc | nic_br_doc.

Definition field_name (f : doc_field) : string :=
  match f with
  | nic_proof => "nic_proof"
  | dob_proof => "dob_proof"
  | business_registration => "business_registration"
  | svat_proof => "svat_proof"
  | vat_proof => "vat_proof"
  | coverage_proof => "coverage_proof"
  | sum_insured_proof => "sum_insured_proof"
  | policy_fee_invoice => "policy_fee_invoice"
  | vat_fee_debit_note => "vat_fee_debit_note"
  | payment_receipt_proof => "payment_receipt_proof"
  | policyholder_doc => "policyholder_doc"
  | vehicle_number_doc => "vehicle_number_doc"
  | proposal_form_doc => "proposal_form_doc"
  | quotation_doc => "quotation_doc"
  | cr_copy_doc => "cr_copy_doc"
  | schedule_doc => "schedule_doc"
  | invoice_debit_note_doc => "invoice_debit_note_doc"
  | payment_receipt_doc => "payment_receipt_doc"
  | nic_br_doc => "nic_br_doc"
  end.

(** [Express.Multer.File], what the handler reads of it. *)
Record File := { originalname : string; size : Z }.

(** [process.env], the two variables of the blob storage. *)
Record Env := {
  AZURE_STORAGE_CONNECTION_STRING : option string;
  AZURE_STORAGE_CONTAINER_NAME : option string
}.

(** [o[k] = v] on an object of texts: in place when [k] is there, at the end
    otherwise. *)
Fixpoint put (k v : string) (o : list (string * string))
  : list (string * string) :=
  match o with
  | [] => [(k, v)]
  | (k', v') :: o' =>
      if String.eqb k' k then (k', v) :: o' else (k', v') :: put k v o'
  end.


(** [{ ...o, ...extra }] *)
Definition merge (o extra : list (string * string)) : list (string * string) :=
  fold_left (fun acc kv => put (fst kv) (snd kv) acc) extra o.

Definition with_rest (v : list (string * string)) (c : Client) : Client :=
  {| id := id c;
     customer_type := customer_type c; product := product c;
     insurance_provider := insurance_provider c;
     client_name := client_name c; mobile_no := mobile_no c;
     email := email c; policy_no := policy_no c;
     sales_rep_id := sales_rep_id c; created_at := created_at c;
     rest := v |}.

(** An upload attempted: the blob name and whether the storage took it. *)
Inductive attempt :=
| Stored (blobName url : string)
| Failed (field : doc_field).

Section Handler.

(** The storage SDK: whether a connection string yields a client, and the
    upload of a blob to a container, which returns the blob's URL or
    throws ([None]). *)
Variable valid_connection : string -> bool.
Variable blob_upload : string -> string -> File -> option string.
(** [path.extname] *)
Variable extname : string -> string.
(** [JSON.parse] of the [clientData] field, read as a [Client]; [None] when
    it throws. *)
Variable JSON_parse : string -> option Client.
Variable accepts : table -> Client -> bool.

(** [initBlobStorage], on the module's [containerClient]: it is assigned
    once the connection string yields a client, before the container is
    looked up or created. *)
Definition initBlobStorage (env : Env) (containerClient : option string)
  : option string :=
  match AZURE_STORAGE_CONNECTION_STRING env with
  | Some cs =>
      if negb (String.eqb cs "") && valid_connection cs
      then Some (JS.or_else (AZURE_STORAGE_CONTAINER_NAME env)
                            "customer-documents")
      else containerClient
  | None => containerClient
  end.

(** [uploadToAzure]: the new [containerClient] and the URL, or [None] when
    it throws.  [uuid] is the value of its [uuidv4()]. *)
Definition uploadToAzure (env : Env) (containerClient : option string)
           (file : File) (clientId : string) (documentType : string)
           (uuid : string) : option string * option (string * string) :=
  let containerClient' :=
    match containerClient with
    | Some _ => containerClient
    | None => initBlobStorage env None
    end in
  match containerClient' with
  | None => (None, None)
  | Some container =>
      let blobName := clientId ++ "/" ++ documentType ++ "_" ++ uuid
                      ++ extname (originalname file) in
      (containerClient',
       match blob_upload container blobName file with
       | Some url => Some (blobName, url)
       | None => None
       end)
  end.



(** The loop over [Object.entries(files)]: the container client, the
    attempts and [documentUrls] so far. *)
Fixpoint upload_all (env : Env) (clientId : string)
         (blob_uuid : doc_field -> string)
         (files : list (doc_field * list File))
         (state : option string * list attempt * list (string * string))
  : option string * list attempt * list (string * string) :=
  match files with
  | [] => state
  | (fieldName, fileArray) :: files' =>
      let '(containerClient, attempts, documentUrls) := state in
      match fileArray with
      | [] => upload_all env clientId blob_uuid files' state
      | file :: _ =>
          match uploadToAzure env containerClient file clientId
                  (field_name fieldName) (blob_uuid fieldName) with
          | (containerClient', Some (blobName, url)) =>
              upload_all env clientId blob_uuid files'
                (containerClient',
                 (attempts ++ [Stored blobName url])%list,
                 put (field_name fieldName) url documentUrls)
          | (containerClient', None) =>
              upload_all env clientId blob_uuid files'
                (containerClient',
                 (attempts ++ [Failed fieldName])%list, documentUrls)
          end
      end
  end.

(** [{ id: clientId, ...clientData, ...documentUrls, sales_rep_id }] *)
Definition newClientData (clientId : string) (clientData : Client)
           (documentUrls : list (string * string)) (salesRepId : Z)
  : Client :=
  with_sales_rep_id (Some salesRepId)
    (with_rest (merge (rest clientData) documentUrls)
       (with_id (Some (match id clientData with
                       | Some own => own
                       | None => clientId
                       end)) clientData)).

Definition failed : response :=
  reply 500 (Message false "Failed to create client with documents").

(** [router.post('/with-documents')].  [uuid0] is the value of the handler's
    own [uuidv4()], [blob_uuid] gives that of each upload, [uuid1] that of
    [createClient]. *)
Definition post_with_documents (env : Env) (tbl : table)
           (containerClient : option string) (user : option Auth.User.t)
           (clientData_q : option string)
           (files : option (list (doc_field * list File)))
           (uuid0 : string) (blob_uuid : doc_field -> string)
           (uuid1 : string) (now : Z)
  : table * option string * list attempt * response :=
  match JSON_parse (JS.or_else clientData_q "{}") with
  | None => (tbl, containerClient, [], failed)
  | Some clientData =>
      if negb (JS.truthy (customer_type clientData))
         || negb (JS.truthy (product clientData))
         || negb (JS.truthy (insurance_provider clientData))
         || negb (JS.truthy (client_name clientData))
         || negb (JS.truthy (mobile_no clientData))
      then (tbl, containerClient, [],
            reply 400 (Message false missing_fields))
      else if checkDuplicate tbl (JS.or_else (client_name clientData) "")
                (JS.or_else (insurance_provider clientData) "")
      then (tbl, containerClient, [], reply 409 (Message false
              "A client with this name and insurance provider already exists"))
      else if no_user_id user
      then (tbl, containerClient, [], reply 401 (Message false
              "User ID not found in authentication data"))
      else
        match JS.parseInt (user_id user) with
        | None => (tbl, containerClient, [],
                   reply 500 (Message false "Invalid sales rep ID format"))
        | Some salesRepId =>
            let clientId := "C" ++ JS.substring0 8 uuid0 in
            let '(containerClient', attempts, documentUrls) :=
              match files with
              | Some fs =>
                  upload_all env clientId blob_uuid fs
                    (containerClient, [], [])
              | None => (containerClient, [], [])
              end in
            match createClient accepts tbl
                    (newClientData clientId clientData documentUrls
                       salesRepId) uuid1 now with
            | (tbl', Ok newClient) =>
                (tbl', containerClient', attempts,
                 reply 201 (Created
                   "Client created successfully with documents" newClient))
            | (tbl', Throw _) => (tbl', containerClient', attempts, failed)
            end
        end
  end.

End Handler.

End Documents.

(* ================================================================== *)
(** ** Further sample data *)

Module Fixtures.
Import Model.

Definition env_no_secret : Auth.Env :=
  {| Auth.MAIN_API_URL := None;
     Auth.AUTH_ENDPOINT := None;
     Auth.JWT_SECRET := None |}.

(** A verifier that knows the token ["view"], signed with ["s3cret"] for a
    user with the role viewer. *)
Definition verify_viewer (token secret : string) : option Auth.DecodedToken :=
  if String.eqb secret "s3cret" && String.eqb token "view"
  then Some {| Auth.userId := 9; Auth.email := "viewer@example.com";
               Auth.role := "viewer"; Auth.exp := 2000 |}
  else None.

Definition viewer : Auth.Remote.user :=
  Auth.Remote.mk (Some (Auth.IdNum 9)) "viewer@example.com" "viewer".

Definition sales_rep : Auth.Remote.user :=
  Auth.Remote.mk (Some (Auth.IdNum 7)) "rep@example.com" "sales".

(** A backend that answers every token with the viewer. *)
Definition post_viewer (url token : string) : Auth.axios_result :=
  Auth.Resolved (Auth.Data (Some viewer)).

(** A backend that answers with the body [null]. *)
Definition post_null (url token : string) : Auth.axios_result :=
  Auth.Resolved Auth.DataNull.


Definition user7 : Auth.User.t := Auth.User.mk "7" "rep@example.com" "sales".

(** A login body with a nested object. *)
Definition login_body : Logging.json :=
  Logging.JObj
    [ ("email", Logging.JStr "rep@example.com");
      ("password", Logging.JStr "hunter2");
      ("profile", Logging.JObj [("password", Logging.JStr "inner")]) ].

Definition blob_env : Documents.Env :=
  {| Documents.AZURE_STORAGE_CONNECTION_STRING := Some "UseDevelopmentStorage=true";
     Documents.AZURE_STORAGE_CONTAINER_NAME := None |}.


Definition any_connection (cs : string) : bool := true.

(** A storage that refuses empty files. *)
Definition blob_upload (container blobName : string) (file : Documents.File)
  : option string :=
  if Documents.size file <=? 0 then None
  else Some ("https://blobs.example.com/" ++ container ++ "/" ++ blobName).

(** The extension of the sample files. *)
Definition extname (originalname : string) : string := ".pdf".

(** A parser that knows the empty object and one client. *)
Definition JSON_parse (text : string) : option Client :=
  if String.eqb text "{}"
  then Some {| id := None; customer_type := None; product := None;
               insurance_provider := None; client_name := None;
               mobile_no := None; email := None; policy_no := None;
               sales_rep_id := None; created_at := None; rest := [] |}
  else if String.eqb text "new-co"
  then Some (Samples.request "New Co" "Test Insurance Co")
  else None.

Definition files : list (Documents.doc_field * list Documents.File) :=
  [ (Documents.nic_proof,
     [{| Documents.originalname := "nic.pdf"; Documents.size := 10 |}]);
    (Documents.dob_proof,
     [{| Documents.originalname := "dob.pdf"; Documents.size := 0 |}]) ].

Definition blob_uuid (f : Documents.doc_field) : string :=
  "6ec0bd7f-11c0-43da-975e-2a8ad9ebae0b".

End Fixtures.

(* ================================================================== *)
(** ** Safe integers, plain keys, and the listing between two writes *)

Module Limits.
Import Model.

(** [Number.MAX_SAFE_INTEGER] *)
Definition MAX_SAFE_INTEGER : Z := 9007199254740991.

(** [Number.isSafeInteger(n)]: on these integers [parseInt] is exact and
    [n.toString()] is the decimal text, which is what [JS.parseInt] and
    [JS.toString] compute.  (From 2^53 on [parseInt] rounds, and from 10^21
    on [toString] writes an exponent.) *)
Definition safe (n : Z) : Prop :=
  - MAX_SAFE_INTEGER <= n <= MAX_SAFE_INTEGER.

(** An id of the backend's user that [toString] prints exactly. *)
Definition safe_id (i : Auth.id_value) : Prop :=
  match i with
  | Auth.IdNum n => safe n
  | Auth.IdStr _ => True
  end.

Definition letter (c : ascii) : bool :=
  let n := nat_of_ascii c in
  ((65 <=? n) && (n <=? 90) || (97 <=? n) && (n <=? 122) || (n =? 95))%nat.

Definition letter_or_digit (c : ascii) : bool :=
  let n := nat_of_ascii c in
  letter c || ((48 <=? n) && (n <=? 57))%nat.

Fixpoint all_chars (p : ascii -> bool) (s : string) : bool :=
  match s with
  | EmptyString => true
  | String c s' => p c && all_chars p s'
  end.

(** A key that [createClient] can join into the [INSERT] text as a column
    name and nothing else: a letter or underscore, then letters, digits and
    underscores. *)
Definition identifier (k : string) : bool :=
  match k with
  | EmptyString => false
  | String c k' => letter c && all_chars letter_or_digit k'
  end.

(** The keys a body carries beside the named columns are such names. *)
Definition plain_keys (body : Client) : bool :=
  forallb identifier (map fst (rest body)).

(** No two of the rows have the same creation time (at most one has
    none): [ORDER BY created_at DESC] then has one possible outcome. *)
Definition distinct_times (rows : list Client) : Prop :=
  NoDup (map created_at rows).

End Limits.

Module Interleaved.
Import Model Routes.

(** [getAllClientsBySalesRep] with the table as each of its two statements
    finds it: the count statement runs on [atCount]; the data statement,
    awaited after it and outside any transaction, on [atData]. *)
Definition getAllClientsBetween (atCount atData : table)
           (salesRepId : string) (page pageSize : option Z)
           (search : option string) : result (list Client * Z) :=
  match JS.parseInt salesRepId with
  | None => Throw ("Invalid sales rep ID: " ++ salesRepId)
  | Some numericSalesRepId =>
      let offset := offset_of page pageSize in
      let total :=
        Z.of_nat (length (filter (listing_where numericSalesRepId search)
                            atCount)) in
      match Sql.offset_fetch offset pageSize
              (Sql.order_by_desc created_at
                 (filter (listing_where numericSalesRepId search) atData))
      with
      | Some clients => Ok (clients, total)
      | None => Throw "storage"
      end
  end.

(** [router.get('/')] over these two states of the table. *)
Definition get_clients_between (atCount atData : table)
           (user : option Auth.User.t)
           (page_q pageSize_q search : option string) : response :=
  let page := query_int page_q 1 in
  let pageSize := query_int pageSize_q 10 in
  if no_user_id user
  then reply 401 (Message false "User ID not found in authentication data")
  else
    match getAllClientsBetween atCount atData (user_id user) page pageSize
            search with
    | Ok (clients, total) =>
        let totalPages := ceil_div total pageSize in
        reply 200 (Paged clients
          {| page := page; pageSize := pageSize; total := total;
             totalPages := totalPages;
             hasNextPage := num_lt page totalPages;
             hasPrevPage := num_lt (Some 1) page |})
    | Throw _ => reply 500 (Message false "Failed to get clients")
    end.

End Interleaved.

(* ================================================================== *)
(** * Properties *)

(* ------------------------------------------------------------------ *)
(** ** Safe integers *)

Module LimitsFacts.

Lemma safe_1 : Limits.safe 1.
Proof. unfold Limits.safe, Limits.MAX_SAFE_INTEGER. lia. Defined.

Lemma safe_7 : Limits.safe 7.
Proof. unfold Limits.safe, Limits.MAX_SAFE_INTEGER. lia. Defined.

End LimitsFacts.

(* ------------------------------------------------------------------ *)
(** ** Numbers and their decimal text *)

Module JSFacts.

(** The digit value of each decimal digit character. *)
Ltac digit_value :=
  first [ progress change (JS.digit 10 "0") with (Some 0)
        | progress change (JS.digit 10 "1") with (Some 1)
        | progress change (JS.digit 10 "2") with (Some 2)
        | progress change (JS.digit 10 "3") with (Some 3)
        | progress change (JS.digit 10 "4") with (Some 4)
        | progress change (JS.digit 10 "5") with (Some 5)
        | progress change (JS.digit 10 "6") with (Some 6)
        | progress change (JS.digit 10 "7") with (Some 7)
        | progress change (JS.digit 10 "8") with (Some 8)
        | progress change (JS.digit 10 "9") with (Some 9) ].

Lemma digits_of_uint_acc (d : Decimal.uint) (acc : positive) :
  JS.digits 10 (Z.pos acc) (NilEmpty.string_of_uint d)
  = Z.pos (Pos.of_uint_acc d acc).
Proof.
  revert acc.
  induction d; intro acc;
    cbn [NilEmpty.string_of_uint JS.digits Pos.of_uint_acc];
    try reflexivity;
    digit_value; cbv iota beta; rewrite <- IHd; f_equal; lia.
Qed.

Lemma digits_of_uint (d : Decimal.uint) :
  JS.digits 10 0 (NilEmpty.string_of_uint d) = Z.of_N (Pos.of_uint d).
Proof.
  induction d; cbn [NilEmpty.string_of_uint JS.digits Pos.of_uint];
    try reflexivity;
    digit_value; cbv iota beta;
    first [ exact IHd
          | match goal with
            | |- JS.digits 10 ?a _ = _ =>
                let v := eval vm_compute in a in
                match v with
                | Z.pos ?p => change a with (Z.pos p)
                end
            end;
            rewrite digits_of_uint_acc; reflexivity ].
Qed.

(** The text of a natural number has no sign, no [0x] and no blank. *)
Lemma unsigned_of_uint (d : Decimal.uint) :
  d <> Decimal.Nil ->
  JS.unsigned (NilEmpty.string_of_uint d) = Some (Z.of_N (Pos.of_uint d)).
Proof.
  intro Hd. rewrite <- digits_of_uint.
  destruct d as [|d|d|d|d|d|d|d|d|d|d]; try congruence;
    try reflexivity.
  destruct d; reflexivity.
Qed.

Lemma parseInt_of_uint (d : Decimal.uint) :
  d <> Decimal.Nil ->
  JS.parseInt (NilEmpty.string_of_uint d) = Some (Z.of_N (Pos.of_uint d)).
Proof.
  intro Hd. rewrite <- (unsigned_of_uint d Hd).
  destruct d; try congruence; reflexivity.
Qed.

Lemma string_of_uint_nonnil (d : Decimal.uint) :
  d <> Decimal.Nil -> NilZero.string_of_uint d = NilEmpty.string_of_uint d.
Proof. destruct d; try congruence; reflexivity. Qed.

(** [parseInt(n.toString())] is [n]. *)
Lemma parseInt_toString (n : Z) : JS.parseInt (JS.toString n) = Some n.
Proof.
  destruct n as [|p|p]; [reflexivity | |]; unfold JS.toString; cbn [Z.to_int NilZero.string_of_int];
    rewrite (string_of_uint_nonnil _ (Unsigned.to_uint_nonnil p)).
  - rewrite (parseInt_of_uint _ (Unsigned.to_uint_nonnil p)), Unsigned.of_to.
    reflexivity.
  - unfold JS.parseInt. cbn [JS.trimStart].
    change (JS.is_space "-") with false. cbv iota.
    rewrite (unsigned_of_uint _ (Unsigned.to_uint_nonnil p)), Unsigned.of_to.
    reflexivity.
Qed.

(** A text that lacks the first character of [needle] does not include it. *)
Lemma includes_lacks (c : ascii) (needle hay : string) :
  JS.lacks c hay = true -> JS.includes (String c needle) hay = false.
Proof.
  induction hay as [|d hay IH]; cbn [JS.lacks JS.includes String.prefix].
  - reflexivity.
  - intro H. apply andb_true_iff in H as [Hc Hl].
    apply negb_true_iff in Hc.
    destruct (ascii_dec c d) as [->|Hne].
    + rewrite Ascii.eqb_refl in Hc. discriminate.
    + rewrite (IH Hl), orb_false_r. reflexivity.
Qed.

Lemma lacks_app (c : ascii) (a b : string) :
  JS.lacks c (a ++ b) = JS.lacks c a && JS.lacks c b.
Proof.
  induction a as [|d a IH]; cbn [append JS.lacks]; [reflexivity|].
  rewrite IH, andb_assoc. reflexivity.
Qed.

Lemma lacks_uint (d : Decimal.uint) : JS.lacks "N" (NilEmpty.string_of_uint d) = true.
Proof. induction d; cbn [NilEmpty.string_of_uint JS.lacks]; auto. Qed.

Lemma lacks_toString (n : Z) : JS.lacks "N" (JS.toString n) = true.
Proof.
  destruct n as [|p|p]; [reflexivity | |]; unfold JS.toString;
    cbn [Z.to_int NilZero.string_of_int];
    rewrite (string_of_uint_nonnil _ (Unsigned.to_uint_nonnil p));
    cbn [JS.lacks]; rewrite lacks_uint; reflexivity.
Qed.

End JSFacts.

(** ** The authentication middleware *)

Module AuthFacts.
Import Auth.

(** The client's error for an answer with an error status never passes the
    guard of the fallback branch. *)
Lemma status_error_not_fallback (status : Z) (data : string) :
  fallback_guard (Axios (status_error status data)) = false.
Proof.
  unfold fallback_guard, status_error; cbn [code message].
  apply orb_false_iff; split.
  - destruct ((400 <=? status) && (status <? 500))%bool; [reflexivity|].
    destruct ((500 <=? status) && (status <? 600))%bool; reflexivity.
  - apply JSFacts.includes_lacks.
    rewrite JSFacts.lacks_app, JSFacts.lacks_toString. reflexivity.
Qed.

Section Resolver.

Variable axios_post : string -> string -> axios_result.
Variable jwt_verify : string -> string -> option DecodedToken.

Lemma bearer_truthy (h : string) :
  JS.startsWith "Bearer " h = true -> JS.truthy (Some h) = true.
Proof. destruct h; [discriminate | reflexivity]. Qed.

(** With a bearer header, the middleware is the choice between the two
    branches. *)
Lemma validate_bearer (env : Env) (now : Z) (h : string) :
  JS.startsWith "Bearer " h = true ->
  validateSalesAuth axios_post jwt_verify env now (Some h)
  = if delegating env then
      match delegate axios_post (auth_url env) (token_of h) with
      | inl o => ([AxiosPost (auth_url env) (token_of h)], o)
      | inr err =>
          let '(evs, o) :=
            on_delegate_error jwt_verify env now (token_of h) err in
          (AxiosPost (auth_url env) (token_of h) :: evs, o)
      end
    else verify_locally jwt_verify env now (token_of h).
Proof.
  intro Hb. unfold validateSalesAuth.
  rewrite (bearer_truthy h Hb), Hb. reflexivity.
Qed.

(** The token sent is what follows ["Bearer "], up to the next blank. *)
Lemma token_of_bearer (t : string) :
  JS.lacks " " t = true -> token_of ("Bearer " ++ t) = t.
Proof.
  intro Ht. unfold token_of. cbn [append JS.split Ascii.eqb Bool.eqb].
  cbv iota.
  assert (Hs : JS.split " " t = [t]).
  { induction t as [|c t IH]; [reflexivity|].
    cbn [JS.lacks] in Ht. apply andb_true_iff in Ht as [Hc Ht].
    cbn [JS.split]. rewrite Ascii.eqb_sym.
    apply negb_true_iff in Hc. rewrite Hc, (IH Ht). reflexivity. }
  rewrite Hs. reflexivity.
Qed.

(** Local verification lets the request through exactly when a secret is
    configured, the signature verifies, the token has not expired and the
    role is sales or admin. *)
Lemma local_succeeds_iff (env : Env) (now : Z) (token : string) :
  succeeded (snd (verify_locally jwt_verify env now token)) = true
  <-> exists secret d,
        JWT_SECRET env = Some secret /\ secret <> ""
        /\ jwt_verify token secret = Some d
        /\ now <= exp d * 1000
        /\ (role d = "sales" \/ role d = "admin").
Proof.
  unfold verify_locally, JS.or_else.
  destruct (JWT_SECRET env) as [secret|]; cbn [String.eqb].
  2:{ split; [discriminate | intros (s & d & H & _); discriminate]. }
  destruct (String.eqb_spec secret "") as [->|Hne].
  { cbn. split; [discriminate|].
    intros (s & d & [= <-] & Hs & _). congruence. }
  apply String.eqb_neq in Hne as Hne'. rewrite Hne'.
  destruct (jwt_verify token secret) as [d|] eqn:Hv; cbn [snd].
  2:{ split; [discriminate|].
      intros (s & d & [= <-] & _ & Hd & _). congruence. }
  unfold role_denied.
  destruct (Z.ltb_spec (exp d * 1000) now) as [Hlt|Hge].
  { split; [discriminate|].
    intros (s & d' & [= <-] & _ & Hd & Hn & _).
    assert (d' = d) by congruence. subst. lia. }
  destruct (String.eqb_spec (role d) "sales") as [Hs|Hs].
  { cbn. split; [|reflexivity]. intros _. exists secret, d. auto 6. }
  destruct (String.eqb_spec (role d) "admin") as [Ha|Ha].
  { cbn. split; [|reflexivity]. intros _. exists secret, d. auto 6. }
  cbn. split; [discriminate|].
  intros (s & d' & [= <-] & _ & Hd & _ & Hr).
  assert (d' = d) by congruence. subst. destruct Hr; contradiction.
Qed.

(** A token that has expired does not pass local verification. *)
Lemma local_expired (env : Env) (now : Z) (token : string) :
  (forall secret d, jwt_verify token secret = Some d -> exp d * 1000 < now) ->
  exists msg, snd (verify_locally jwt_verify env now token) = Respond 401 (Envelope false msg).
Proof.
  intro Hexp. unfold verify_locally.
  destruct (String.eqb _ ""); [eexists; reflexivity|].
  destruct (jwt_verify token _) as [d|] eqn:Hv; [|eexists; reflexivity].
  apply Hexp in Hv. apply Z.ltb_lt in Hv. cbn [snd]. rewrite Hv.
  eexists; reflexivity.
Qed.

(** When the call to the backend fails with an error that passes the guard
    (a timeout, or a message that includes "Network Error"), the middleware
    verifies the same token locally, and the request goes through exactly
    when that verification succeeds. *)
Lemma fallback_on_guard (env : Env) (now : Z) (h : string) (err : thrown) :
  JS.startsWith "Bearer " h = true ->
  delegating env = true ->
  axios_post (auth_url env) (token_of h) = Rejected err ->
  fallback_guard err = true ->
  validateSalesAuth axios_post jwt_verify env now (Some h)
  = (AxiosPost (auth_url env) (token_of h) :: fst (verify_locally jwt_verify env now (token_of h)),
     snd (verify_locally jwt_verify env now (token_of h))).
Proof.
  intros Hb Hd Hp Hg. rewrite (validate_bearer env now h Hb), Hd.
  unfold delegate. rewrite Hp. unfold on_delegate_error. rewrite Hg.
  destruct (verify_locally jwt_verify env now (token_of h)); reflexivity.
Qed.

(** An error of the call that carries no response and does not pass the
    guard is answered with 500; the token is not verified locally. *)
Lemma unanswered_error_is_500 (env : Env) (now : Z) (h : string)
      (e : AxiosError) :
  JS.startsWith "Bearer " h = true ->
  delegating env = true ->
  axios_post (auth_url env) (token_of h) = Rejected (Axios e) ->
  response e = None ->
  fallback_guard (Axios e) = false ->
  validateSalesAuth axios_post jwt_verify env now (Some h)
  = ([AxiosPost (auth_url env) (token_of h)],
     Respond 500 (Envelope false "Authentication service error")).
Proof.
  intros Hb Hd Hp Hr Hg. rewrite (validate_bearer env now h Hb), Hd.
  unfold delegate. rewrite Hp. unfold on_delegate_error. rewrite Hg.
  destruct e as [c m r]. cbn [response] in Hr. subst r. reflexivity.
Qed.

(** Claim C4, as amended: a token whose expiry lies in the past is answered
    with 401 whenever the middleware itself verifies it, that is when no
    backend is configured or when the call to the backend failed with an
    error that passes the guard of the fallback branch.  (On the delegation
    path the middleware does not look at the expiry: the answer is the
    backend's.) *)
Theorem expired_token_unauthorized_locally
        (env : Env) (now : Z) (h : string) :
  JS.startsWith "Bearer " h = true ->
  (forall secret d,
      jwt_verify (token_of h) secret = Some d -> exp d * 1000 < now) ->
  delegating env = false
  \/ (exists err, axios_post (auth_url env) (token_of h) = Rejected err
                  /\ fallback_guard err = true) ->
  exists msg,
    snd (validateSalesAuth axios_post jwt_verify env now (Some h)) = Respond 401 (Envelope false msg).
Proof.
  intros Hb Hexp [Hl | (err & Hp & Hg)].
  - rewrite (validate_bearer env now h Hb), Hl.
    apply local_expired, Hexp.
  - destruct (delegating env) eqn:Hd.
    + rewrite (fallback_on_guard env now h err Hb Hd Hp Hg). cbn [snd].
      apply local_expired, Hexp.
    + rewrite (validate_bearer env now h Hb), Hd.
      apply local_expired, Hexp.
Qed.

(** Claim C5: when the backend answers the call with an error response (the
    client raises an error that carries the response and is not a timeout
    or network failure), the middleware writes that status and that body,
    and the only call it has made is the one to the backend: the token is
    not verified locally. *)
Theorem upstream_rejection_verbatim
        (env : Env) (now : Z) (h : string) (e : AxiosError)
        (status : Z) (data : string) :
  JS.startsWith "Bearer " h = true ->
  delegating env = true ->
  axios_post (auth_url env) (token_of h) = Rejected (Axios e) ->
  response e = Some (status, data) ->
  fallback_guard (Axios e) = false ->
  validateSalesAuth axios_post jwt_verify env now (Some h)
  = ([AxiosPost (auth_url env) (token_of h)],
     Respond status (Verbatim data)).
Proof.
  intros Hb Hd Hp Hr Hg. rewrite (validate_bearer env now h Hb), Hd.
  unfold delegate. rewrite Hp. unfold on_delegate_error. rewrite Hg.
  destruct e as [c m r]. cbn [response] in Hr. subst r. reflexivity.
Qed.

End Resolver.

(** Claim C1, at a connection the backend refuses: the client's error has
    code ECONNREFUSED, the guard of the fallback branch looks for
    ECONNABORTED or for a message that includes "Network Error", and the
    request is answered with 500 although the same token passes local
    verification. *)
Theorem refused_connection_is_not_verified_locally :
  validateSalesAuth Samples.post_refused Samples.verify Samples.env_remote
                    5000 (Some "Bearer good")
  = ([AxiosPost "http://localhost:5000/api/auth/validate" "good"],
     Respond 500 (Envelope false "Authentication service error"))
  /\ succeeded (snd (verify_locally Samples.verify Samples.env_remote
                                    5000 "good")) = true.
Proof. split; reflexivity. Qed.

(** The fallback at work: the call times out and the token is verified
    locally. *)
Example timeout_falls_back :
  validateSalesAuth Samples.post_timed_out Samples.verify Samples.env_remote
                    5000 (Some "Bearer good")
  = ([AxiosPost "http://localhost:5000/api/auth/validate" "good";
      JwtVerify "good" "s3cret"],
     Next (User.mk "7" "rep@example.com" "sales")).
Proof. reflexivity. Qed.

(** Claim C4 as stated fails on the delegation path: the token ["old"]
    expired at second 1, the clock shows second 5, the backend accepts the
    token and so does the middleware. *)
Lemma expired_token_passes_delegation :
  Samples.verify "old" "s3cret" = Some (Samples.claims 1)
  /\ exp (Samples.claims 1) * 1000 < 5000
  /\ validateSalesAuth Samples.post_accepts Samples.verify Samples.env_remote
                       5000 (Some "Bearer old")
     = ([AxiosPost "http://localhost:5000/api/auth/validate" "old"],
        Next (User.mk "7" "rep@example.com" "sales")).
Proof. repeat split; reflexivity. Qed.

Lemma expired_token_unauthorized_locally_witness :
  exists msg,
    snd (validateSalesAuth Samples.post_timed_out Samples.verify
                           Samples.env_remote 5000 (Some "Bearer old"))
    = Respond 401 (Envelope false msg).
Proof.
  apply (expired_token_unauthorized_locally
           Samples.post_timed_out Samples.verify Samples.env_remote 5000
           "Bearer old").
  - reflexivity.
  - intros secret d H.
    change (token_of "Bearer old") with "old" in H.
    unfold Samples.verify in H.
    destruct (String.eqb secret "s3cret"); [|discriminate].
    cbn in H. injection H as <-. reflexivity.
  - right. eexists; split; reflexivity.
Defined.

Lemma upstream_rejection_verbatim_witness :
  validateSalesAuth Samples.post_401 Samples.verify Samples.env_remote 5000
                    (Some "Bearer good")
  = ([AxiosPost "http://localhost:5000/api/auth/validate" "good"],
     Respond 401
       (Verbatim "{ success: false, message: 'Invalid or expired token' }")).
Proof.
  apply (upstream_rejection_verbatim
           Samples.post_401 Samples.verify Samples.env_remote 5000
           "Bearer good"
           (status_error 401
              "{ success: false, message: 'Invalid or expired token' }"));
    reflexivity.
Defined.

End AuthFacts.

(** ** The storage engine *)

Module SqlFacts.
Import Sql.

(** *** The collation *)




(** *** LIKE with a search term that has no wildcard *)







(** *** ORDER BY ... DESC *)

Section Rows.
Context {A : Type}.
Variable key : A -> option Z.

Lemma key_ge_total (a b : option Z) : key_ge a b = false -> key_ge b a = true.
Proof.
  destruct a as [x|], b as [y|]; cbn; try discriminate; try reflexivity.
  intro H. apply Z.leb_gt in H. apply Z.leb_le. lia.
Qed.

Lemma key_ge_trans (a b c : option Z) :
  key_ge a b = true -> key_ge b c = true -> key_ge a c = true.
Proof.
  destruct a as [x|], b as [y|], c as [z|]; cbn;
    try discriminate; try reflexivity.
  intros H1 H2. apply Z.leb_le in H1, H2. apply Z.leb_le. lia.
Qed.

Lemma insert_desc_perm (x : A) (l : list A) :
  Permutation (x :: l) (insert_desc key x l).
Proof.
  induction l as [|y l IH]; cbn [insert_desc]; [reflexivity|].
  destruct (key_ge (key x) (key y)); [reflexivity|].
  rewrite perm_swap. apply perm_skip, IH.
Qed.

Lemma order_by_desc_perm (l : list A) :
  Permutation l (order_by_desc key l).
Proof.
  induction l as [|x l IH]; [reflexivity|].
  cbn [order_by_desc fold_right].
  rewrite <- insert_desc_perm. apply perm_skip, IH.
Qed.

Lemma insert_desc_sorted (x : A) (l : list A) :
  StronglySorted (desc key) l -> StronglySorted (desc key) (insert_desc key x l).
Proof.
  induction 1 as [|y l Hs IH Hy]; cbn [insert_desc].
  - repeat constructor.
  - destruct (key_ge (key x) (key y)) eqn:Hxy.
    + constructor; [constructor; assumption|].
      constructor; [exact Hxy|].
      apply Forall_impl with (2 := Hy). intros z Hz.
      exact (key_ge_trans _ _ _ Hxy Hz).
    + constructor; [exact IH|].
      apply (Permutation_Forall (insert_desc_perm x l)).
      constructor; [exact (key_ge_total _ _ Hxy) | exact Hy].
Qed.

Lemma order_by_desc_sorted (l : list A) :
  StronglySorted (desc key) (order_by_desc key l).
Proof.
  induction l as [|x l IH]; [constructor|].
  apply insert_desc_sorted, IH.
Qed.

Lemma In_firstn (z : A) (n : nat) (l : list A) :
  In z (firstn n l) -> In z l.
Proof.
  intro H. rewrite <- (firstn_skipn n l). apply in_or_app. left. exact H.
Qed.



Lemma sorted_firstn (n : nat) (l : list A) :
  StronglySorted (desc key) l -> StronglySorted (desc key) (firstn n l).
Proof.
  revert l. induction n as [|n IH]; intros l Hl; [constructor|].
  destruct l as [|x l]; [constructor|].
  inversion Hl as [|? ? Hs Hx]; subst. cbn [firstn].
  constructor; [apply IH, Hs|].
  rewrite Forall_forall in *. intros z Hz.
  apply Hx. exact (In_firstn _ _ _ Hz).
Qed.

Lemma In_order_by_desc (x : A) (l : list A) :
  In x (order_by_desc key l) <-> In x l.
Proof.
  split; apply Permutation_in;
    [symmetry|]; apply order_by_desc_perm.
Qed.

Lemma length_order_by_desc (l : list A) :
  length (order_by_desc key l) = length l.
Proof. symmetry. apply Permutation_length, order_by_desc_perm. Qed.

End Rows.

End SqlFacts.

(** ** The client model *)

Module ModelFacts.
Import Model.


Lemma truthy_false_blank (v : option string) :
  JS.truthy v = false <-> Spec.blank v.
Proof.
  unfold Spec.blank. destruct v as [s|]; cbn.
  - destruct (String.eqb_spec s ""); cbn; split; intro H; subst; auto;
      try discriminate.
    destruct H as [H|H]; congruence.
  - split; auto.
Qed.


Lemma owned_by_iff (n : Z) (r : Client) :
  owned_by n r = true <-> sales_rep_id r = Some n.
Proof.
  unfold owned_by, Sql.int_eq. destruct (sales_rep_id r) as [v|].
  - rewrite Z.eqb_eq. split; congruence.
  - split; discriminate.
Qed.




Section Insert.
Variable accepts : table -> Client -> bool.


(** However it ends, [createClient] leaves the table as it was or adds the
    one row. *)
Lemma createClient_table (tbl : table) (clientData : Client)
      (uuid : string) (now : Z) :
  fst (createClient accepts tbl clientData uuid now) = tbl
  \/ fst (createClient accepts tbl clientData uuid now)
     = (tbl ++ [dataWithId clientData uuid now])%list.
Proof.
  unfold createClient. destruct (accepts tbl _); [right | left; reflexivity].
  destruct (filter _ _); reflexivity.
Qed.


End Insert.


End ModelFacts.

(** ** The handlers *)

Module RoutesFacts.
Import Model Routes.

Lemma incomplete_iff (body : Client) :
  negb (JS.truthy (customer_type body))
  || negb (JS.truthy (product body))
  || negb (JS.truthy (insurance_provider body))
  || negb (JS.truthy (client_name body))
  || negb (JS.truthy (mobile_no body))
  = negb (Spec.complete body).
Proof.
  unfold Spec.complete.
  destruct (JS.truthy (customer_type body)), (JS.truthy (product body)),
    (JS.truthy (insurance_provider body)), (JS.truthy (client_name body)),
    (JS.truthy (mobile_no body)); reflexivity.
Qed.


Lemma no_user_id_false (u : Auth.User.t) :
  Auth.User.id u <> "" -> no_user_id (Some u) = false.
Proof. intro H. apply String.eqb_neq. exact H. Qed.

(** *** Identifiers *)



Section Handlers.
Variable accepts : table -> Client -> bool.

(** The handler of a creation, past the check of the required fields. *)
Lemma post_client_complete (tbl : table) (user : option Auth.User.t)
      (body : Client) (uuid : string) (now : Z) :
  Spec.complete body = true ->
  post_client accepts tbl user body uuid now
  = if checkDuplicate tbl (JS.or_else (client_name body) "")
         (JS.or_else (insurance_provider body) "")
    then (tbl, reply 409 (Message false
            "A client with this name and insurance provider already exists"))
    else if no_user_id user
    then (tbl, reply 401 (Message false
            "User ID not found in authentication data"))
    else
      match JS.parseInt (user_id user) with
      | None => (tbl, reply 500 (Message false "Invalid sales rep ID format"))
      | Some salesRepId =>
          match createClient accepts tbl
                  (with_sales_rep_id (Some salesRepId) body) uuid now with
          | (tbl', Ok newClient) =>
              (tbl', reply 201 (Created "Client created successfully"
                                        newClient))
          | (tbl', Throw _) =>
              (tbl', reply 500 (Message false "Failed to create client"))
          end
      end.
Proof.
  intro Hc. unfold post_client. rewrite incomplete_iff, Hc. reflexivity.
Qed.

Lemma post_client_incomplete (tbl : table) (user : option Auth.User.t)
      (body : Client) (uuid : string) (now : Z) :
  Spec.complete body = false ->
  post_client accepts tbl user body uuid now
  = (tbl, reply 400 (Message false missing_fields)).
Proof.
  intro Hc. unfold post_client. rewrite incomplete_iff, Hc. reflexivity.
Qed.

(** Claim C8: a creation request in which one of the five required fields
    (customer type, product, insurance provider, client name, mobile number)
    is absent or empty is answered with 400, and the table is as it was. *)
Theorem missing_field_is_400 (tbl : table) (user : option Auth.User.t)
        (body : Client) (uuid : string) (now : Z) :
  Spec.blank (customer_type body) \/ Spec.blank (product body)
  \/ Spec.blank (insurance_provider body) \/ Spec.blank (client_name body)
  \/ Spec.blank (mobile_no body) ->
  post_client accepts tbl user body uuid now
  = (tbl, reply 400 (Message false missing_fields)).
Proof.
  intro H. apply post_client_incomplete. unfold Spec.complete.
  rewrite <- !ModelFacts.truthy_false_blank in H.
  destruct H as [H|[H|[H|[H|H]]]]; rewrite H;
    rewrite ?andb_false_r; reflexivity.
Qed.



(** Claim C10, as amended: when the principal's id is not empty and does not
    parse as an integer, the recent listing answers 500 with "Invalid sales
    rep ID format"; so does a creation whose body carries the required fields
    and whose (client name, insurance provider) pair is not in the table;
    and no creation inserts a record. *)
Theorem unparsable_principal_id_is_500
        (tbl : table) (u : Auth.User.t) (body : Client) (uuid : string)
        (now : Z) (limit_q : option string) :
  Auth.User.id u <> "" ->
  JS.parseInt (Auth.User.id u) = None ->
  (Spec.complete body = true ->
   checkDuplicate tbl (JS.or_else (client_name body) "")
     (JS.or_else (insurance_provider body) "") = false ->
   post_client accepts tbl (Some u) body uuid now
   = (tbl, reply 500 (Message false "Invalid sales rep ID format")))
  /\ fst (post_client accepts tbl (Some u) body uuid now) = tbl
  /\ get_recent tbl (Some u) limit_q
     = reply 500 (Message false "Invalid sales rep ID format").
Proof.
  intros Hu Hn. repeat split.
  - intros Hc Hd.
    rewrite (post_client_complete _ _ _ _ _ Hc), Hd, (no_user_id_false u Hu).
    cbn [user_id]. rewrite Hn. reflexivity.
  - destruct (Spec.complete body) eqn:Hc.
    + rewrite (post_client_complete _ _ _ _ _ Hc), (no_user_id_false u Hu).
      cbn [user_id]. rewrite Hn.
      destruct (checkDuplicate tbl _ _); reflexivity.
    + rewrite (post_client_incomplete _ _ _ _ _ Hc). reflexivity.
  - unfold get_recent. rewrite (no_user_id_false u Hu).
    cbn [user_id]. rewrite Hn. reflexivity.
Qed.

End Handlers.

(** *** Listings *)

(** What the listing statement returns for the sales rep [n]. *)
Lemma getAll_ok (tbl : table) (sid : string) (n p k : Z)
      (search : option string) :
  JS.parseInt sid = Some n -> 1 <= p -> 1 <= k ->
  getAllClientsBySalesRep tbl sid (Some p) (Some k) search
  = Ok (firstn (Z.to_nat k)
          (skipn (Z.to_nat ((p - 1) * k))
             (Sql.order_by_desc created_at
                (filter (listing_where n search) tbl))),
        Z.of_nat (length (filter (listing_where n search) tbl))).
Proof.
  intros Hn Hp Hk. unfold getAllClientsBySalesRep. rewrite Hn.
  cbn [offset_of Sql.offset_fetch].
  assert (H0 : (0 <=? (p - 1) * k) = true) by (apply Z.leb_le; nia).
  assert (H1 : (1 <=? k) = true) by (apply Z.leb_le; lia).
  rewrite H0, H1. reflexivity.
Qed.

Lemma getAll_inv (tbl : table) (sid : string) (page pageSize : option Z)
      (search : option string) (clients : list Client) (total : Z) :
  getAllClientsBySalesRep tbl sid page pageSize search = Ok (clients, total) ->
  exists n a b,
    JS.parseInt sid = Some n
    /\ total = Z.of_nat (length (filter (listing_where n search) tbl))
    /\ clients = firstn a (skipn b (Sql.order_by_desc created_at
                                     (filter (listing_where n search) tbl))).
Proof.
  unfold getAllClientsBySalesRep.
  destruct (JS.parseInt sid) as [n|]; [|discriminate].
  unfold Sql.offset_fetch.
  destruct (offset_of page pageSize) as [o|]; [|discriminate].
  destruct pageSize as [f|]; [|discriminate].
  destruct ((0 <=? o) && (1 <=? f)); [|discriminate].
  intros [= <- <-]. exists n, (Z.to_nat f), (Z.to_nat o). auto.
Qed.





(** On one state of the table the two statements of the listing are those
    of [get_clients]. *)
Lemma get_clients_one_state (tbl : table) (user : option Auth.User.t)
      (page_q pageSize_q search : option string) :
  Interleaved.get_clients_between tbl tbl user page_q pageSize_q search
  = get_clients tbl user page_q pageSize_q search.
Proof. reflexivity. Qed.




(** *** The theorems at work on the sample table *)









Lemma missing_field_is_400_witness :
  post_client Samples.accepts_all Samples.clients (Samples.rep "7")
    (Samples.request_without_mobile "New Co" "Test Insurance Co")
    Samples.uuid 400
  = (Samples.clients, reply 400 (Message false missing_fields)).
Proof.
  apply (missing_field_is_400 Samples.accepts_all).
  do 4 right. left. reflexivity.
Defined.



(** Claim C10 as stated fails where an earlier check answers first: a body
    without mobile number is answered with 400, and a principal whose id is
    empty, which parses to no integer either, with 401. *)
Lemma unparsable_principal_id_other_answers :
  JS.parseInt "abc" = None
  /\ post_client Samples.accepts_all Samples.clients (Samples.rep "abc")
       (Samples.request_without_mobile "New Co" "Test Insurance Co")
       Samples.uuid 400
     = (Samples.clients, reply 400 (Message false missing_fields))
  /\ JS.parseInt "" = None
  /\ get_recent Samples.clients (Samples.rep "") None
     = reply 401 (Message false "User ID not found in authentication data").
Proof. repeat split; reflexivity. Qed.

Lemma unparsable_principal_id_is_500_witness :
  post_client Samples.accepts_all Samples.clients (Samples.rep "abc")
    (Samples.request "New Co" "Test Insurance Co") Samples.uuid 400
  = (Samples.clients, reply 500 (Message false "Invalid sales rep ID format"))
  /\ get_recent Samples.clients (Samples.rep "abc") None
     = reply 500 (Message false "Invalid sales rep ID format").
Proof.
  destruct (unparsable_principal_id_is_500 Samples.accepts_all
              Samples.clients (Auth.User.mk "abc" "rep@example.com" "sales")
              (Samples.request "New Co" "Test Insurance Co") Samples.uuid 400
              None) as (Hpost & _ & Hrecent);
    try reflexivity; try discriminate.
  split; [apply Hpost; reflexivity | exact Hrecent].
Defined.

End RoutesFacts.

(** ** The authentication middleware, further *)

Module AuthMore.
Import Auth.

Lemma role_denied_false (r : string) :
  role_denied r = false <-> r = "sales" \/ r = "admin".
Proof.
  unfold role_denied.
  destruct (String.eqb_spec r "sales"), (String.eqb_spec r "admin"); cbn;
    split; auto; try discriminate.
  intros [?|?]; contradiction.
Qed.

Section Resolver.

Variable axios_post : string -> string -> axios_result.
Variable jwt_verify : string -> string -> option DecodedToken.

(** What local verification lets through is the principal of the decoded
    claims. *)
Lemma local_next_iff (env : Env) (now : Z) (token : string) (u : User.t) :
  snd (verify_locally jwt_verify env now token) = Next u
  <-> exists secret d,
        JWT_SECRET env = Some secret /\ secret <> ""
        /\ jwt_verify token secret = Some d
        /\ now <= exp d * 1000
        /\ (role d = "sales" \/ role d = "admin")
        /\ u = User.mk (JS.toString (userId d)) (email d) (role d).
Proof.
  unfold verify_locally, JS.or_else.
  destruct (JWT_SECRET env) as [secret|]; cbn [String.eqb].
  2:{ split; [discriminate | intros (s & d & H & _); discriminate]. }
  destruct (String.eqb_spec secret "") as [->|Hne].
  { cbn. split; [discriminate|].
    intros (s & d & [= <-] & Hs & _). congruence. }
  apply String.eqb_neq in Hne as Hne'. rewrite Hne'.
  destruct (jwt_verify token secret) as [d|] eqn:Hv; cbn [snd].
  2:{ split; [discriminate|].
      intros (s & d & [= <-] & _ & Hd & _). congruence. }
  destruct (Z.ltb_spec (exp d * 1000) now) as [Hlt|Hge].
  { split; [discriminate|].
    intros (s & d' & [= <-] & _ & Hd & Hn & _).
    assert (d' = d) by congruence. subst. lia. }
  destruct (role_denied (role d)) eqn:Hr.
  { split; [discriminate|].
    intros (s & d' & [= <-] & _ & Hd & _ & Hrole & _).
    assert (d' = d) by congruence. subst.
    apply role_denied_false in Hrole. congruence. }
  apply role_denied_false in Hr. split.
  - intros [= <-]. exists secret, d. auto 8.
  - intros (s & d' & [= <-] & _ & Hd & _ & _ & ->).
    assert (d' = d) by congruence. subst. reflexivity.
Qed.

(** A request without an [Authorization] header, or whose header does not
    start with ["Bearer "], is answered with 401 "No token provided"; neither
    the backend nor [jwt.verify] is called. *)
Theorem no_bearer_header_is_401 (env : Env) (now : Z)
        (authorization : option string) :
  (forall h, authorization = Some h -> JS.startsWith "Bearer " h = false) ->
  validateSalesAuth axios_post jwt_verify env now authorization
  = ([], Respond 401 (Envelope false "No token provided")).
Proof.
  intro H. unfold validateSalesAuth.
  destruct authorization as [h|]; [|reflexivity].
  rewrite (H h eq_refl). cbn [negb]. rewrite orb_true_r. reflexivity.
Qed.

(** Whatever the header, the environment, the backend's answer and the
    verifier: a principal the middleware lets through has the role sales or
    admin. *)
Theorem principal_role_is_sales_or_admin (env : Env) (now : Z)
        (authorization : option string) (evs : list event) (u : User.t) :
  validateSalesAuth axios_post jwt_verify env now authorization
  = (evs, Next u) ->
  User.role u = "sales" \/ User.role u = "admin".
Proof.
  unfold validateSalesAuth.
  destruct authorization as [h|]; [|discriminate].
  destruct (negb (JS.truthy (Some h)) || negb (JS.startsWith "Bearer " h));
    [discriminate|].
  assert (Hlocal : forall t evs',
             verify_locally jwt_verify env now t = (evs', Next u) ->
             User.role u = "sales" \/ User.role u = "admin").
  { intros t evs' H.
    assert (H' : snd (verify_locally jwt_verify env now t) = Next u)
      by (rewrite H; reflexivity).
    apply local_next_iff in H' as (s & d & _ & _ & _ & _ & Hr & ->).
    exact Hr. }
  destruct (delegating env); [|apply Hlocal].
  unfold delegate.
  destruct (axios_post (auth_url env) (token_of h)) as [[|[user|]]|err].
  - cbn. discriminate.
  - destruct (role_denied (Remote.role user)) eqn:Hr; [discriminate|].
    destruct (Remote.id user); [|cbn; discriminate].
    intros [= _ <-]. cbn. apply role_denied_false, Hr.
  - discriminate.
  - unfold on_delegate_error.
    destruct (fallback_guard err).
    + destruct (verify_locally jwt_verify env now (token_of h)) as [evs' o]
        eqn:Hv.
      intros [= _ ->]. exact (Hlocal _ _ Hv).
    + destruct err as [[c m [[st data]|]]|msg]; discriminate.
Qed.

(** A role that is neither sales nor admin is answered with 403 "Access
    denied: Sales role required": when the backend accepts the token for
    such a user, and when the token verifies locally, unexpired, with such a
    role. *)
Theorem other_role_is_403 (env : Env) (now : Z) (h : string) :
  JS.startsWith "Bearer " h = true ->
  (forall user,
      delegating env = true ->
      axios_post (auth_url env) (token_of h) = Resolved (Data (Some user)) ->
      role_denied (Remote.role user) = true ->
      validateSalesAuth axios_post jwt_verify env now (Some h)
      = ([AxiosPost (auth_url env) (token_of h)], forbidden))
  /\ (forall secret d,
         delegating env = false
         \/ (exists err,
                axios_post (auth_url env) (token_of h) = Rejected err
                /\ fallback_guard err = true) ->
         JWT_SECRET env = Some secret -> secret <> "" ->
         jwt_verify (token_of h) secret = Some d ->
         now <= exp d * 1000 ->
         role_denied (role d) = true ->
         snd (validateSalesAuth axios_post jwt_verify env now (Some h))
         = forbidden).
Proof.
  intro Hb. split.
  - intros user Hd Hp Hr.
    rewrite (AuthFacts.validate_bearer _ _ env now h Hb), Hd.
    unfold delegate. rewrite Hp, Hr. reflexivity.
  - intros secret d Hpath Hs Hne Hv Hexp Hr.
    assert (Hl : snd (verify_locally jwt_verify env now (token_of h))
                 = forbidden).
    { unfold verify_locally, JS.or_else. rewrite Hs.
      apply String.eqb_neq in Hne. rewrite Hne. cbn [String.eqb].
      rewrite Hne, Hv. cbn [snd].
      destruct (Z.ltb_spec (exp d * 1000) now); [lia|].
      rewrite Hr. reflexivity. }
    destruct Hpath as [Hd | (err & Hp & Hg)].
    + rewrite (AuthFacts.validate_bearer _ _ env now h Hb), Hd. exact Hl.
    + destruct (delegating env) eqn:Hd.
      * rewrite (AuthFacts.fallback_on_guard _ _ env now h err Hb Hd Hp Hg).
        exact Hl.
      * rewrite (AuthFacts.validate_bearer _ _ env now h Hb), Hd. exact Hl.
Qed.

(** When the middleware verifies the token itself (no backend configured,
    or the fallback), under a non-empty secret, and [jwt.verify] returns
    claims that have not expired, with the role sales or admin and a
    [userId] that is a safe integer, the request goes through; the
    principal is made of these claims, its id the decimal text of [userId],
    which [parseInt] reads back as [userId]. *)
Theorem local_verification_accepts (env : Env) (now : Z) (h secret : string)
        (d : DecodedToken) :
  JS.startsWith "Bearer " h = true ->
  delegating env = false
  \/ (exists err,
         axios_post (auth_url env) (token_of h) = Rejected err
         /\ fallback_guard err = true) ->
  JWT_SECRET env = Some secret -> secret <> "" ->
  jwt_verify (token_of h) secret = Some d ->
  now <= exp d * 1000 ->
  role d = "sales" \/ role d = "admin" ->
  Limits.safe (userId d) ->
  snd (validateSalesAuth axios_post jwt_verify env now (Some h))
  = Next (User.mk (JS.toString (userId d)) (email d) (role d))
  /\ JS.parseInt (JS.toString (userId d)) = Some (userId d).
Proof.
  intros Hb Hpath Hs Hne Hv Hexp Hr Hsafe.
  split; [|apply JSFacts.parseInt_toString].
  assert (Heq : snd (validateSalesAuth axios_post jwt_verify env now (Some h))
                = snd (verify_locally jwt_verify env now (token_of h))).
  { destruct Hpath as [Hd | (err & Hp & Hg)].
    - rewrite (AuthFacts.validate_bearer _ _ env now h Hb), Hd. reflexivity.
    - destruct (delegating env) eqn:Hd.
      + rewrite (AuthFacts.fallback_on_guard _ _ env now h err Hb Hd Hp Hg).
        reflexivity.
      + rewrite (AuthFacts.validate_bearer _ _ env now h Hb), Hd.
        reflexivity. }
  rewrite Heq. apply local_next_iff. exists secret, d. auto 8.
Qed.

(** Without a [JWT_SECRET] (unset or empty), local verification answers 401
    "Invalid token" and [jwt.verify] is not called. *)
Theorem no_secret_is_401_unverified (env : Env) (now : Z) (h : string) :
  JS.startsWith "Bearer " h = true ->
  JS.truthy (JWT_SECRET env) = false ->
  delegating env = false
  \/ (exists err,
         axios_post (auth_url env) (token_of h) = Rejected err
         /\ fallback_guard err = true) ->
  snd (validateSalesAuth axios_post jwt_verify env now (Some h))
  = invalid_token
  /\ forall t s,
       ~ In (JwtVerify t s)
            (fst (validateSalesAuth axios_post jwt_verify env now (Some h))).
Proof.
  intros Hb Hs Hpath.
  assert (Hl : verify_locally jwt_verify env now (token_of h)
               = ([], invalid_token)).
  { unfold verify_locally, JS.or_else. unfold JS.truthy in Hs.
    destruct (JWT_SECRET env) as [s|]; [|reflexivity].
    apply negb_false_iff in Hs. rewrite Hs. reflexivity. }
  destruct Hpath as [Hd | (err & Hp & Hg)].
  - rewrite (AuthFacts.validate_bearer _ _ env now h Hb), Hd, Hl.
    split; [reflexivity | intros t s []].
  - destruct (delegating env) eqn:Hd.
    + rewrite (AuthFacts.fallback_on_guard _ _ env now h err Hb Hd Hp Hg), Hl.
      split; [reflexivity|]. intros t s [H|[]]. discriminate.
    + rewrite (AuthFacts.validate_bearer _ _ env now h Hb), Hd, Hl.
      split; [reflexivity | intros t s []].
Qed.

(** When the backend accepts the token for a user with the role sales or
    admin and an id, the request goes through with that user and no local
    verification; a numeric id that is a safe integer is carried as its
    decimal text, which [parseInt] reads back as the same number. *)
Theorem delegated_principal (env : Env) (now : Z) (h : string)
        (user : Remote.user) (i : id_value) :
  JS.startsWith "Bearer " h = true ->
  delegating env = true ->
  axios_post (auth_url env) (token_of h) = Resolved (Data (Some user)) ->
  Remote.role user = "sales" \/ Remote.role user = "admin" ->
  Remote.id user = Some i ->
  Limits.safe_id i ->
  validateSalesAuth axios_post jwt_verify env now (Some h)
  = ([AxiosPost (auth_url env) (token_of h)],
     Next (User.mk (id_toString i) (Remote.email user) (Remote.role user)))
  /\ forall n, i = IdNum n -> JS.parseInt (id_toString i) = Some n.
Proof.
  intros Hb Hd Hp Hr Hi Hsafe. split.
  - rewrite (AuthFacts.validate_bearer _ _ env now h Hb), Hd.
    unfold delegate. rewrite Hp.
    apply role_denied_false in Hr. rewrite Hr, Hi. reflexivity.
  - intros n ->. apply JSFacts.parseInt_toString.
Qed.

(** An answer of the backend without [user] is answered with 403; an answer
    whose body is [null], or whose user has an accepted role and no id, makes
    the [try] block throw and is answered with 500 "Authentication service
    error". *)
Theorem unreadable_answer (env : Env) (now : Z) (h : string) :
  JS.startsWith "Bearer " h = true ->
  delegating env = true ->
  (axios_post (auth_url env) (token_of h) = Resolved (Data None) ->
   validateSalesAuth axios_post jwt_verify env now (Some h)
   = ([AxiosPost (auth_url env) (token_of h)], forbidden))
  /\ (axios_post (auth_url env) (token_of h) = Resolved DataNull
      \/ (exists user,
             axios_post (auth_url env) (token_of h)
             = Resolved (Data (Some user))
             /\ role_denied (Remote.role user) = false
             /\ Remote.id user = None) ->
      validateSalesAuth axios_post jwt_verify env now (Some h)
      = ([AxiosPost (auth_url env) (token_of h)],
         Respond 500 (Envelope false "Authentication service error"))).
Proof.
  intros Hb Hd. rewrite (AuthFacts.validate_bearer _ _ env now h Hb), Hd.
  unfold delegate. split.
  - intros ->. reflexivity.
  - intros [-> | (user & -> & Hr & Hi)]; [reflexivity|].
    rewrite Hr, Hi. reflexivity.
Qed.

(** The calls of a request: at most the one to the backend, then at most
    one local verification. *)
Lemma trace_shape (env : Env) (now : Z) (h : string) :
  JS.startsWith "Bearer " h = true ->
  exists pre loc,
    fst (validateSalesAuth axios_post jwt_verify env now (Some h))
    = (pre ++ loc)%list
    /\ (pre = []
        \/ (delegating env = true
            /\ pre = [AxiosPost (auth_url env) (token_of h)]))
    /\ (loc = []
        \/ exists s, JWT_SECRET env = Some s /\ s <> ""
                     /\ loc = [JwtVerify (token_of h) s]).
Proof.
  intro Hb.
  assert (Hl : fst (verify_locally jwt_verify env now (token_of h)) = []
               \/ exists s, JWT_SECRET env = Some s /\ s <> ""
                  /\ fst (verify_locally jwt_verify env now (token_of h))
                     = [JwtVerify (token_of h) s]).
  { unfold verify_locally, JS.or_else.
    destruct (JWT_SECRET env) as [s|]; [|left; reflexivity].
    destruct (String.eqb_spec s "") as [->|Hne]; [left; reflexivity|].
    apply String.eqb_neq in Hne as Hne'. rewrite Hne'.
    right. exists s. repeat split; [exact Hne|].
    destruct (jwt_verify (token_of h) s); reflexivity. }
  rewrite (AuthFacts.validate_bearer _ _ env now h Hb).
  destruct (delegating env) eqn:Hd.
  - exists [AxiosPost (auth_url env) (token_of h)].
    destruct (delegate axios_post (auth_url env) (token_of h)) as [o|err].
    + exists []. cbn. auto.
    + unfold on_delegate_error. destruct (fallback_guard err).
      * exists (fst (verify_locally jwt_verify env now (token_of h))).
        destruct (verify_locally jwt_verify env now (token_of h)) as [evs o].
        cbn [fst] in *. split; [reflexivity|]. split; [auto|].
        destruct Hl as [-> | (s & Hs & Hne & ->)]; [left | right; exists s];
          auto.
      * exists []. split; [|auto].
        destruct err as [[c m [[st data]|]]|msg]; reflexivity.
  - exists [], (fst (verify_locally jwt_verify env now (token_of h))).
    split; [reflexivity|]. split; [auto|].
    destruct Hl as [-> | (s & Hs & Hne & ->)]; [left | right; exists s]; auto.
Qed.

(** The calls of a request: the backend is called only when it is
    configured, at its URL; [jwt.verify] only under a non-empty secret; both
    with the token of the header; and there are at most two calls. *)
Theorem calls_carry_the_header_token (env : Env) (now : Z) (h : string) :
  JS.startsWith "Bearer " h = true ->
  (forall url t,
      In (AxiosPost url t)
         (fst (validateSalesAuth axios_post jwt_verify env now (Some h))) ->
      delegating env = true /\ url = auth_url env /\ t = token_of h)
  /\ (forall t s,
         In (JwtVerify t s)
            (fst (validateSalesAuth axios_post jwt_verify env now (Some h))) ->
         t = token_of h /\ JWT_SECRET env = Some s /\ s <> "")
  /\ (length (fst (validateSalesAuth axios_post jwt_verify env now (Some h)))
      <= 2)%nat.
Proof.
  intro Hb.
  destruct (trace_shape env now h Hb) as (pre & loc & -> & Hpre & Hloc).
  destruct Hpre as [-> | (Hd & ->)];
    destruct Hloc as [-> | (s & Hs & Hne & ->)]; cbn [app length In];
    (split; [|split]); try lia; intros a b H;
    repeat (destruct H as [H|H]); try discriminate; try contradiction;
    injection H as <- <-; auto.
Qed.

(** The token is the first word after ["Bearer "]: what follows a further
    blank of the header is dropped. *)
Theorem token_is_first_word (t rest : string) :
  JS.lacks " " t = true ->
  token_of ("Bearer " ++ t) = t
  /\ token_of ("Bearer " ++ t ++ String " " rest) = t.
Proof.
  intro Ht. split; [apply AuthFacts.token_of_bearer, Ht|].
  unfold token_of. cbn [append JS.split Ascii.eqb Bool.eqb]. cbv iota.
  assert (Hs : exists ws, JS.split " " (t ++ String " " rest) = t :: ws).
  { induction t as [|c t IH].
    - cbn. eexists; reflexivity.
    - cbn [JS.lacks] in Ht. apply andb_true_iff in Ht as [Hc Ht].
      destruct (IH Ht) as (ws & Hws).
      cbn [append JS.split]. rewrite Ascii.eqb_sym.
      apply negb_true_iff in Hc. rewrite Hc, Hws. eexists; reflexivity. }
  destruct Hs as (ws & ->). reflexivity.
Qed.

End Resolver.

End AuthMore.


(** ** Pages of a listing *)

Module PagesFacts.
Import Model Routes Pages.

(** *** Arithmetic of pages *)

Lemma ceil_div_bounds (total k tp : Z) :
  1 <= k -> ceil_div total (Some k) = Some tp ->
  total <= tp * k /\ (tp - 1) * k < total.
Proof.
  intros Hk. unfold ceil_div.
  destruct (Z.eqb_spec k 0); [lia|]. intros [= <-].
  pose proof (Z.div_mod (- total) k ltac:(lia)) as Hdm.
  pose proof (Z.mod_pos_bound (- total) k ltac:(lia)) as Hm.
  nia.
Qed.


(** The pages of a list, [k] rows each, put end to end, are the list. *)
Lemma pages_of_list {A} (k m : nat) (l : list A) :
  (length l <= m * k)%nat ->
  flat_map (fun i => firstn k (skipn (i * k) l)) (seq 0 m) = l.
Proof.
  revert l. induction m as [|m IH]; intros l Hl.
  - destruct l; [reflexivity | cbn in Hl; lia].
  - cbn [seq flat_map]. rewrite <- seq_shift, flat_map_concat_map, map_map.
    rewrite <- flat_map_concat_map.
    rewrite (flat_map_ext _ (fun i => firstn k (skipn (i * k) (skipn k l)))).
    + rewrite IH; [apply firstn_skipn|]. rewrite length_skipn. lia.
    + intro i. rewrite skipn_skipn. do 2 f_equal. lia.
Qed.

Section Listing.
Variables (tbl : table) (search : option string).

(** What the paginated listing answers for valid paging. *)
Lemma get_clients_ok (u : Auth.User.t) (page_q pageSize_q : option string)
      (n p k : Z) :
  Auth.User.id u <> "" ->
  JS.parseInt (Auth.User.id u) = Some n ->
  query_int page_q 1 = Some p ->
  query_int pageSize_q 10 = Some k ->
  1 <= p -> 1 <= k ->
  let ordered :=
    Sql.order_by_desc created_at (filter (listing_where n search) tbl) in
  let count := Z.of_nat (length (filter (listing_where n search) tbl)) in
  get_clients tbl (Some u) page_q pageSize_q search
  = reply 200
      (Paged (firstn (Z.to_nat k) (skipn (Z.to_nat ((p - 1) * k)) ordered))
         {| page := Some p; pageSize := Some k; total := count;
            totalPages := ceil_div count (Some k);
            hasNextPage := num_lt (Some p) (ceil_div count (Some k));
            hasPrevPage := num_lt (Some 1) (Some p) |}).
Proof.
  intros Hu Hn Hp Hk Hp1 Hk1. cbv zeta. unfold get_clients.
  rewrite (RoutesFacts.no_user_id_false u Hu), Hp, Hk. cbn [user_id].
  rewrite (RoutesFacts.getAll_ok tbl _ n p k search Hn Hp1 Hk1). reflexivity.
Qed.

(** With distinct keys, a list has one descending order. *)
Lemma descending_order_unique {A} (key : A -> option Z) (l1 l2 : list A) :
  NoDup (map key l1) ->
  Permutation l1 l2 ->
  StronglySorted (Sql.desc key) l1 ->
  StronglySorted (Sql.desc key) l2 ->
  l1 = l2.
Proof.
  revert l2. induction l1 as [|x l1 IH]; intros l2 Hnd Hp H1 H2.
  - apply Permutation_nil in Hp. subst. reflexivity.
  - destruct l2 as [|y l2].
    { apply Permutation_sym, Permutation_nil in Hp. discriminate. }
    inversion H1 as [|? ? Hs1 Hx]; subst.
    inversion H2 as [|? ? Hs2 Hy]; subst.
    rewrite Forall_forall in Hx, Hy.
    assert (Hxy : x = y).
    { assert (Hyin : In y (x :: l1))
        by (apply (Permutation_in y (Permutation_sym Hp)); left; reflexivity).
      assert (Hxin : In x (y :: l2))
        by (apply (Permutation_in x Hp); left; reflexivity).
      destruct Hyin as [E|Hyin]; [exact E|].
      destruct Hxin as [E|Hxin]; [symmetry; exact E|].
      specialize (Hx y Hyin). specialize (Hy x Hxin).
      unfold Sql.desc in Hx, Hy.
      assert (Hk : key x = key y).
      { destruct (key x) as [a|], (key y) as [b|]; cbn in Hx, Hy;
          try discriminate; [|reflexivity].
        apply Z.leb_le in Hx, Hy. f_equal. lia. }
      inversion Hnd as [|? ? Hnin _]; subst.
      exfalso. apply Hnin. rewrite Hk. apply in_map, Hyin. }
    subst y. f_equal.
    apply IH; [inversion Hnd; assumption | | assumption | assumption].
    exact (Permutation_cons_inv Hp).
Qed.

(** For a sales rep whose id and a page size that are safe integers, and
    matching records with distinct creation times: the pages 1 to
    [totalPages] of a listing, put end to end, are the matching records in
    descending order of creation, no record lost or repeated; and that
    order is the only descending order of these records, whichever way a
    statement sorts them. *)
Theorem pages_concatenate (sid : string) (n k tp : Z) :
  JS.parseInt sid = Some n ->
  Limits.safe n ->
  1 <= k -> Limits.safe k ->
  Limits.distinct_times (filter (listing_where n search) tbl) ->
  ceil_div (Z.of_nat (length (filter (listing_where n search) tbl))) (Some k)
  = Some tp ->
  flat_map
    (fun i => clients_of
                (getAllClientsBySalesRep tbl sid (Some (Z.of_nat i)) (Some k)
                   search))
    (seq 1 (Z.to_nat tp))
  = Sql.order_by_desc created_at (filter (listing_where n search) tbl)
  /\ forall ordered,
       Permutation (filter (listing_where n search) tbl) ordered ->
       StronglySorted (Sql.desc created_at) ordered ->
       ordered
       = Sql.order_by_desc created_at (filter (listing_where n search) tbl).
Proof.
  intros Hn Hsn Hk Hsk Hdist Htp. split.
  - destruct (ceil_div_bounds _ k tp Hk Htp) as [Hup _].
    rewrite <- seq_shift, flat_map_concat_map, map_map,
      <- flat_map_concat_map.
    rewrite (flat_map_ext _
               (fun i => firstn (Z.to_nat k)
                           (skipn (i * Z.to_nat k)
                              (Sql.order_by_desc created_at
                                 (filter (listing_where n search) tbl))))).
    + apply pages_of_list. rewrite SqlFacts.length_order_by_desc. nia.
    + intro i.
      rewrite (RoutesFacts.getAll_ok tbl sid n (Z.of_nat (S i)) k search Hn
                 ltac:(lia) Hk).
      cbn [clients_of]. do 2 f_equal. nia.
  - intros ordered Hp Hs. symmetry.
    apply (descending_order_unique created_at).
    + unfold Limits.distinct_times in Hdist.
      apply (Permutation_NoDup
               (Permutation_map created_at
                  (SqlFacts.order_by_desc_perm created_at _)) Hdist).
    + rewrite <- (SqlFacts.order_by_desc_perm created_at). exact Hp.
    + apply SqlFacts.order_by_desc_sorted.
    + exact Hs.
Qed.



(** A page or page size that is no number, or is below 1, makes the data
    statement fail: the listing is answered with 500 "Failed to get
    clients". *)
Theorem invalid_paging_is_500 (user : option Auth.User.t)
        (page_q pageSize_q : option string) :
  no_user_id user = false ->
  query_int page_q 1 = None
  \/ query_int pageSize_q 10 = None
  \/ (exists p, query_int page_q 1 = Some p /\ p < 1)
  \/ (exists k, query_int pageSize_q 10 = Some k /\ k < 1) ->
  get_clients tbl user page_q pageSize_q search
  = reply 500 (Message false "Failed to get clients").
Proof.
  intros Hu H. unfold get_clients. rewrite Hu.
  unfold getAllClientsBySalesRep.
  destruct (JS.parseInt (user_id user)) as [n|]; [|reflexivity].
  assert (Hf : Sql.offset_fetch
                 (offset_of (query_int page_q 1) (query_int pageSize_q 10))
                 (query_int pageSize_q 10)
                 (Sql.order_by_desc created_at
                    (filter (listing_where n search) tbl)) = None).
  { unfold Sql.offset_fetch, offset_of.
    destruct H as [-> | [-> | [(p & -> & Hp) | (k & -> & Hk)]]].
    - reflexivity.
    - destruct (query_int page_q 1); reflexivity.
    - destruct (query_int pageSize_q 10) as [k|]; [|reflexivity].
      destruct (Z.leb_spec 1 k); [|rewrite andb_false_r; reflexivity].
      destruct (Z.leb_spec 0 ((p - 1) * k)); [nia | reflexivity].
    - destruct (query_int page_q 1) as [p|]; [|reflexivity].
      destruct (Z.leb_spec 1 k); [lia|]. rewrite andb_false_r. reflexivity. }
  rewrite Hf. reflexivity.
Qed.

End Listing.

(** A search parameter made of blanks only is no search: the listing is
    the one without the parameter. *)
Theorem blank_search_is_no_search (tbl : table) (user : option Auth.User.t)
        (page_q pageSize_q : option string) (s : string) :
  JS.trim s = "" ->
  get_clients tbl user page_q pageSize_q (Some s)
  = get_clients tbl user page_q pageSize_q None.
Proof.
  intro Hs. unfold get_clients, getAllClientsBySalesRep.
  assert (Hw : forall n, listing_where n (Some s) = listing_where n None).
  { intro n. unfold listing_where, searching. rewrite Hs.
    cbn [String.eqb negb]. rewrite andb_false_r. reflexivity. }
  destruct (no_user_id user); [reflexivity|].
  destruct (JS.parseInt (user_id user)) as [n|]; [|reflexivity].
  rewrite (Hw n). reflexivity.
Qed.

(** Without [req.user], or with an empty id, each handler answers 401; the
    creation does so once the fields and the duplicate check have passed. *)
Theorem missing_principal_is_401 (accepts : table -> Client -> bool)
        (tbl : table) (user : option Auth.User.t) (body : Client)
        (uuid : string) (now : Z)
        (page_q pageSize_q search limit_q : option string) :
  user = None \/ (exists u, user = Some u /\ Auth.User.id u = "") ->
  get_recent tbl user limit_q
  = reply 401 (Message false "User ID not found in authentication data")
  /\ get_clients tbl user page_q pageSize_q search
     = reply 401 (Message false "User ID not found in authentication data")
  /\ (Spec.complete body = true ->
      checkDuplicate tbl (JS.or_else (client_name body) "")
        (JS.or_else (insurance_provider body) "") = false ->
      post_client accepts tbl user body uuid now
      = (tbl, reply 401 (Message false
                "User ID not found in authentication data"))).
Proof.
  intro H.
  assert (Hn : no_user_id user = true).
  { destruct H as [-> | (u & -> & Hu)]; [reflexivity|].
    cbn. rewrite Hu. reflexivity. }
  unfold get_recent, get_clients. rewrite Hn. repeat split.
  intros Hc Hd.
  rewrite (RoutesFacts.post_client_complete accepts _ _ _ _ _ Hc), Hd, Hn.
  reflexivity.
Qed.

(** The paginated listing has no check of its own on the principal's id: an
    id that parses to no integer makes the model throw, and the answer is
    500 "Failed to get clients". *)
Theorem listing_unparsable_id_is_500 (tbl : table) (u : Auth.User.t)
        (page_q pageSize_q search : option string) :
  Auth.User.id u <> "" ->
  JS.parseInt (Auth.User.id u) = None ->
  get_clients tbl (Some u) page_q pageSize_q search
  = reply 500 (Message false "Failed to get clients").
Proof.
  intros Hu Hn. unfold get_clients, getAllClientsBySalesRep.
  rewrite (RoutesFacts.no_user_id_false u Hu). cbn [user_id]. rewrite Hn.
  reflexivity.
Qed.

(** *** The recent listing *)

Lemma get_recent_ok (tbl : table) (u : Auth.User.t) (limit_q : option string)
      (n k : Z) :
  Auth.User.id u <> "" ->
  JS.parseInt (Auth.User.id u) = Some n ->
  query_int limit_q 10 = Some k ->
  0 <= k ->
  get_recent tbl (Some u) limit_q
  = reply 200
      (Recent
         (Z.of_nat (length (firstn (Z.to_nat k)
            (Sql.order_by_desc created_at (filter (owned_by n) tbl)))))
         (firstn (Z.to_nat k)
            (Sql.order_by_desc created_at (filter (owned_by n) tbl)))).
Proof.
  intros Hu Hn Hk Hk0. unfold get_recent.
  rewrite (RoutesFacts.no_user_id_false u Hu), Hk. cbn [user_id]. rewrite Hn.
  unfold getClientsByCreator. rewrite JSFacts.parseInt_toString.
  unfold Sql.top. destruct (Z.leb_spec 0 k); [reflexivity | lia].
Qed.

(** For a principal whose id parses to a safe integer and a limit that is a
    safe integer and not negative, the recent listing returns the newest
    records first, all of them owned by the principal, and exactly
    [min(limit, number of owned records)] of them; [count] is their
    number. *)
Theorem recent_is_bounded_and_ordered (tbl : table) (u : Auth.User.t)
        (limit_q : option string) (n k : Z) :
  Auth.User.id u <> "" ->
  JS.parseInt (Auth.User.id u) = Some n ->
  Limits.safe n ->
  query_int limit_q 10 = Some k ->
  0 <= k -> Limits.safe k ->
  exists data,
    get_recent tbl (Some u) limit_q
    = reply 200 (Recent (Z.of_nat (length data)) data)
    /\ Z.of_nat (length data) <= k
    /\ Z.of_nat (length data)
       = Z.min k (Z.of_nat (length (filter (owned_by n) tbl)))
    /\ StronglySorted (Sql.desc created_at) data
    /\ (forall r, In r data -> In r tbl /\ sales_rep_id r = Some n).
Proof.
  intros Hu Hn Hsn Hk Hk0 Hsk.
  rewrite (get_recent_ok tbl u limit_q n k Hu Hn Hk Hk0).
  eexists. split; [reflexivity|].
  rewrite length_firstn, SqlFacts.length_order_by_desc.
  repeat split; try lia.
  - apply SqlFacts.sorted_firstn, SqlFacts.order_by_desc_sorted.
  - apply SqlFacts.In_firstn, SqlFacts.In_order_by_desc, filter_In in H.
    apply H.
  - apply SqlFacts.In_firstn, SqlFacts.In_order_by_desc, filter_In in H.
    apply ModelFacts.owned_by_iff, H.
Qed.

(** A limit that is no number or is negative makes the statement fail: the
    recent listing is answered with 500 "Failed to get recent clients". *)
Theorem invalid_limit_is_500 (tbl : table) (u : Auth.User.t)
        (limit_q : option string) :
  Auth.User.id u <> "" ->
  (exists n, JS.parseInt (Auth.User.id u) = Some n) ->
  query_int limit_q 10 = None
  \/ (exists k, query_int limit_q 10 = Some k /\ k < 0) ->
  get_recent tbl (Some u) limit_q
  = reply 500 (Message false "Failed to get recent clients").
Proof.
  intros Hu (n & Hn) Hk. unfold get_recent.
  rewrite (RoutesFacts.no_user_id_false u Hu). cbn [user_id]. rewrite Hn.
  unfold getClientsByCreator. rewrite JSFacts.parseInt_toString.
  unfold Sql.top. destruct Hk as [-> | (k & -> & Hk)]; [reflexivity|].
  destruct (Z.leb_spec 0 k); [lia | reflexivity].
Qed.

(** For a principal whose id parses to a safe integer, whose records have
    distinct creation times, and a limit [k >= 1] that is a safe integer:
    the recent listing with limit [k] returns the rows of the first page of
    the paginated listing with page size [k] and no search, and these are
    the first [k] rows of any descending order of the principal's
    records. *)
Theorem recent_is_first_page (tbl : table) (u : Auth.User.t)
        (limit_q : option string) (n k : Z) :
  Auth.User.id u <> "" ->
  JS.parseInt (Auth.User.id u) = Some n ->
  Limits.safe n ->
  Limits.distinct_times (filter (owned_by n) tbl) ->
  query_int limit_q 10 = Some k ->
  1 <= k -> Limits.safe k ->
  exists data pg,
    get_clients tbl (Some u) None limit_q None = reply 200 (Paged data pg)
    /\ get_recent tbl (Some u) limit_q
       = reply 200 (Recent (Z.of_nat (length data)) data)
    /\ forall ordered,
         Permutation (filter (owned_by n) tbl) ordered ->
         StronglySorted (Sql.desc created_at) ordered ->
         data = firstn (Z.to_nat k) ordered.
Proof.
  intros Hu Hn Hsn Hdist Hk Hk1 Hsk.
  rewrite (get_recent_ok tbl u limit_q n k Hu Hn Hk ltac:(lia)).
  rewrite (get_clients_ok tbl None u None limit_q n 1 k Hu Hn eq_refl Hk
             (Z.le_refl 1) Hk1).
  change (Z.to_nat ((1 - 1) * k)) with 0%nat. cbn [skipn].
  eexists _, _. split; [reflexivity|]. split; [reflexivity|].
  intros ordered Hp Hs. f_equal.
  change (filter (listing_where n None) tbl) with (filter (owned_by n) tbl).
  apply (descending_order_unique created_at).
  - unfold Limits.distinct_times in Hdist.
    apply (Permutation_NoDup
             (Permutation_map created_at
                (SqlFacts.order_by_desc_perm created_at _)) Hdist).
  - rewrite <- (SqlFacts.order_by_desc_perm created_at). exact Hp.
  - apply SqlFacts.order_by_desc_sorted.
  - exact Hs.
Qed.

End PagesFacts.


(** ** Creation and listings *)

Module CreationFacts.
Import Model Routes Pages.


Lemma new_row_owner (n : Z) (body : Client) (uuid : string) (now : Z) :
  sales_rep_id (new_row n body uuid now) = Some n.
Proof. reflexivity. Qed.

(** [checkDuplicate] answers true exactly when some row of the table,
    whoever owns it, has the client name and the insurance provider (as the
    engine compares texts). *)
Theorem duplicate_is_any_row_of_the_table (tbl : table)
        (name provider : string) :
  checkDuplicate tbl name provider = true
  <-> exists r, In r tbl
                /\ Sql.col_eq (client_name r) name = true
                /\ Sql.col_eq (insurance_provider r) provider = true.
Proof.
  unfold checkDuplicate. rewrite Z.ltb_lt. split.
  - intro H.
    destruct (filter _ tbl) as [|r l] eqn:Hf; [cbn in H; lia|].
    assert (Hr : In r (filter
                   (fun r => Sql.col_eq (client_name r) name
                             && Sql.col_eq (insurance_provider r) provider)
                   tbl)) by (rewrite Hf; left; reflexivity).
    apply filter_In in Hr as [Hin Hr]. apply andb_true_iff in Hr.
    exists r. tauto.
  - intros (r & Hin & Hn & Hp).
    assert (Hr : In r (filter
                   (fun r => Sql.col_eq (client_name r) name
                             && Sql.col_eq (insurance_provider r) provider)
                   tbl)).
    { apply filter_In. split; [exact Hin|]. rewrite Hn, Hp. reflexivity. }
    destruct (filter _ tbl); [destruct Hr | cbn; lia].
Qed.

Section Handlers.
Variable accepts : table -> Client -> bool.




(** The table after a request for a creation. *)
Lemma post_client_table (tbl : table) (user : option Auth.User.t)
      (body : Client) (uuid : string) (now : Z) :
  fst (post_client accepts tbl user body uuid now) = tbl
  \/ exists n, JS.parseInt (user_id user) = Some n
               /\ fst (post_client accepts tbl user body uuid now)
                  = (tbl ++ [new_row n body uuid now])%list.
Proof.
  destruct (Spec.complete body) eqn:Hc.
  2:{ rewrite (RoutesFacts.post_client_incomplete accepts _ _ _ _ _ Hc).
      left. reflexivity. }
  rewrite (RoutesFacts.post_client_complete accepts _ _ _ _ _ Hc).
  destruct (checkDuplicate tbl _ _); [left; reflexivity|].
  destruct (no_user_id user); [left; reflexivity|].
  destruct (JS.parseInt (user_id user)) as [n|]; [|left; reflexivity].
  pose proof (ModelFacts.createClient_table accepts tbl
                (with_sales_rep_id (Some n) body) uuid now) as Ht.
  destruct (createClient accepts tbl _ uuid now) as [t [r|e]];
    cbn [fst] in *; (destruct Ht as [-> | ->];
                     [left; reflexivity | right; exists n; auto]).
Qed.

(** However a request for a creation ends, when the keys of its body are
    plain column names, the listings, paginated and recent, of every other
    sales rep whose id is a safe integer are as they were. *)
Theorem creation_leaves_other_listings (tbl : table)
        (user : option Auth.User.t) (body : Client) (uuid : string) (now : Z)
        (sid : string) (m : Z) (page pageSize : option Z)
        (search : option string) (limit : option Z) :
  Limits.plain_keys body = true ->
  JS.parseInt sid = Some m ->
  Limits.safe m ->
  JS.parseInt (user_id user) <> Some m ->
  getAllClientsBySalesRep (fst (post_client accepts tbl user body uuid now))
    sid page pageSize search
  = getAllClientsBySalesRep tbl sid page pageSize search
  /\ getClientsByCreator (fst (post_client accepts tbl user body uuid now))
       sid limit
     = getClientsByCreator tbl sid limit.
Proof.
  intros Hkeys Hm Hsafe Hne.
  destruct (post_client_table tbl user body uuid now) as [-> | (n & Hn & ->)];
    [split; reflexivity|].
  assert (Hnm : (n =? m) = false) by (apply Z.eqb_neq; congruence).
  unfold getAllClientsBySalesRep, getClientsByCreator. rewrite Hm.
  rewrite !filter_app. cbn [filter].
  assert (Ho : owned_by m (new_row n body uuid now) = false).
  { unfold owned_by. rewrite new_row_owner. exact Hnm. }
  assert (Hw : listing_where m search (new_row n body uuid now) = false).
  { unfold listing_where. rewrite Ho. destruct (searching search); reflexivity. }
  rewrite Ho, Hw, !List.app_nil_r. split; reflexivity.
Qed.


End Handlers.

End CreationFacts.


(** ** The request logger and the query helper *)

Module LoggingFacts.
Import Logging.

Lemma get_set_same (k : string) (v : json) (o : object) :
  get k (set k v o) = Some v.
Proof.
  induction o as [|[k' v'] o IH]; cbn [set get].
  - rewrite String.eqb_refl. reflexivity.
  - destruct (String.eqb k' k) eqn:E; cbn [get]; rewrite E; auto.
Qed.

Lemma get_set_other (k k' : string) (v : json) (o : object) :
  k' <> k -> get k' (set k v o) = get k' o.
Proof.
  intro Hne. induction o as [|[k0 v0] o IH]; cbn [set get].
  - apply String.eqb_neq in Hne. rewrite String.eqb_sym, Hne. reflexivity.
  - destruct (String.eqb_spec k0 k) as [->|]; cbn [get].
    + apply String.eqb_neq in Hne. rewrite String.eqb_sym, Hne.
      reflexivity.
    + rewrite IH. reflexivity.
Qed.

Lemma keys_set (k : string) (v : json) (o : object) :
  get k o <> None -> map fst (set k v o) = map fst o.
Proof.
  induction o as [|[k' v'] o IH]; cbn [set get map fst]; [congruence|].
  destruct (String.eqb k' k); cbn [map fst]; [reflexivity|].
  intro H. rewrite (IH H). reflexivity.
Qed.

Lemma get_redact_same (k : string) (o : object) (v : json) :
  get k (redact k o) = Some v -> v = JStr "[REDACTED]" \/ truthy v = false.
Proof.
  unfold redact. destruct (get k o) as [w|] eqn:Hg; [|congruence].
  destruct (truthy w) eqn:Ht.
  - rewrite get_set_same. intros [= <-]. left. reflexivity.
  - rewrite Hg. intros [= <-]. right. exact Ht.
Qed.

Lemma get_redact_other (k k' : string) (o : object) :
  k' <> k -> get k' (redact k o) = get k' o.
Proof.
  intro Hne. unfold redact. destruct (get k o) as [w|]; [|reflexivity].
  destruct (truthy w); [apply get_set_other, Hne | reflexivity].
Qed.

Lemma keys_redact (k : string) (o : object) :
  map fst (redact k o) = map fst o.
Proof.
  unfold redact. destruct (get k o) as [w|] eqn:Hg; [|reflexivity].
  destruct (truthy w); [apply keys_set; congruence | reflexivity].
Qed.

(** The logger writes a body only for a request that is not a GET and has
    a truthy body; in the body written, a [password] or [token] property is
    ["[REDACTED]"] or falsy. *)
Theorem logged_body_hides_password_and_token
        (start : Z) (method url : string) (body : option json)
        (o : object) (v : json) :
  In (Body o) (requestLogger start method url body) ->
  (method <> "GET"
   /\ exists b, body = Some b /\ truthy b = true /\ o = sanitizedBody b)
  /\ (get "password" o = Some v \/ get "token" o = Some v ->
      v = JStr "[REDACTED]" \/ truthy v = false).
Proof.
  unfold requestLogger. intros [H|H]; [discriminate|].
  destruct body as [b|]; [|destruct H].
  destruct (String.eqb_spec method "GET") as [->|Hm]; [destruct H|].
  destruct (truthy b) eqn:Hb; [|destruct H].
  destruct H as [[= <-]|[]].
  split; [split; [exact Hm | exists b; auto]|].
  unfold sanitizedBody. intros [H|H].
  - rewrite get_redact_other in H by discriminate.
    exact (get_redact_same _ _ _ H).
  - exact (get_redact_same _ _ _ H).
Qed.

(** Redaction keeps the properties of the body and their order, and
    changes no property other than [password] and [token]: what lies
    deeper in the body is written as received.  A body without truthy
    [password] and [token] is written unchanged. *)
Theorem logged_body_keeps_other_properties (body : json) (k : string) :
  map fst (sanitizedBody body) = map fst (spread body)
  /\ (k <> "password" -> k <> "token" ->
      get k (sanitizedBody body) = get k (spread body))
  /\ ((forall v, get "password" (spread body) = Some v -> truthy v = false) ->
      (forall v, get "token" (spread body) = Some v -> truthy v = false) ->
      sanitizedBody body = spread body).
Proof.
  unfold sanitizedBody. repeat split.
  - rewrite !keys_redact. reflexivity.
  - intros Hp Ht. rewrite !get_redact_other by assumption. reflexivity.
  - intros Hp Ht.
    assert (H1 : redact "password" (spread body) = spread body).
    { unfold redact. destruct (get "password" (spread body)) as [w|] eqn:Hg;
        [|reflexivity].
      rewrite (Hp w eq_refl). reflexivity. }
    rewrite H1. unfold redact.
    destruct (get "token" (spread body)) as [w|] eqn:Hg; [|reflexivity].
    rewrite (Ht w eq_refl). reflexivity.
Qed.

End LoggingFacts.

Module DbFacts.
Import Db.

Lemma toString_inj (i j : Z) : JS.toString i = JS.toString j -> i = j.
Proof.
  intro H. pose proof (JSFacts.parseInt_toString i) as Hi.
  rewrite H, JSFacts.parseInt_toString in Hi. congruence.
Qed.

Lemma parameterize_plain (offset : Z) (text : string) :
  JS.lacks "?" text = true -> parameterize offset text = text.
Proof.
  revert offset. induction text as [|c text IH]; intros offset H;
    [reflexivity|].
  cbn [JS.lacks] in H. apply andb_true_iff in H as [Hc H].
  apply negb_true_iff in Hc. rewrite Ascii.eqb_sym in Hc.
  cbn [parameterize]. rewrite Hc, (IH _ H). reflexivity.
Qed.

Lemma parameterize_app (offset : Z) (pre rest : string) :
  JS.lacks "?" pre = true ->
  parameterize offset (pre ++ rest)
  = pre ++ parameterize (offset + Z.of_nat (String.length pre)) rest.
Proof.
  revert offset. induction pre as [|c pre IH]; intros offset H.
  - cbn. rewrite Z.add_0_r. reflexivity.
  - cbn [JS.lacks] in H. apply andb_true_iff in H as [Hc H].
    apply negb_true_iff in Hc. rewrite Ascii.eqb_sym in Hc.
    cbn [append parameterize]. rewrite Hc, (IH _ H).
    do 3 f_equal. cbn [String.length]. lia.
Qed.

Lemma bound_inputs {A} (i index : Z) (params : list A) :
  bound ("param" ++ JS.toString i) (inputs index params) = true
  <-> index <= i < index + Z.of_nat (length params).
Proof.
  revert index. induction params as [|p params IH]; intro index.
  - cbn. split; [discriminate | lia].
  - cbn [inputs bound existsb fst length].
    change (existsb _ (inputs (index + 1) params))
      with (bound ("param" ++ JS.toString i) (inputs (index + 1) params)).
    rewrite orb_true_iff, IH, String.eqb_eq.
    split.
    + intros [H | H]; [|lia].
      assert (Hs : JS.toString index = JS.toString i).
      { cbn in H. congruence. }
      apply toString_inj in Hs. lia.
    + intro H. destruct (Z.eq_dec index i) as [->|]; [left; reflexivity|].
      right. lia.
Qed.

(** A statement without question mark is handed to the driver as written,
    with its parameters bound as [param0], [param1], ... in order. *)
Theorem statement_without_marker_is_sent_as_written
        {A} (text : string) (params : list A) (i : Z) :
  JS.lacks "?" text = true ->
  fst (query text params) = text
  /\ (bound ("param" ++ JS.toString i) (snd (query text params)) = true
      <-> 0 <= i < Z.of_nat (length params)).
Proof.
  intro H. unfold query. cbn [fst snd]. split.
  - apply parameterize_plain, H.
  - rewrite bound_inputs. lia.
Qed.

(** The first question mark of a statement is replaced by [@param]
    followed by its offset in the text, not by its rank among the question
    marks; that name is bound only when the offset is below the number of
    parameters. *)
Theorem marker_is_named_by_its_offset
        {A} (pre post : string) (params : list A) :
  JS.lacks "?" pre = true ->
  fst (query (pre ++ String "?" post) params)
  = pre ++ "@param" ++ JS.toString (Z.of_nat (String.length pre))
        ++ parameterize (Z.of_nat (String.length pre) + 1) post
  /\ (bound ("param" ++ JS.toString (Z.of_nat (String.length pre)))
            (snd (query (pre ++ String "?" post) params)) = true
      <-> (String.length pre < length params)%nat).
Proof.
  intro H. unfold query. cbn [fst snd]. split.
  - rewrite (parameterize_app 0 pre _ H). cbn [parameterize Ascii.eqb Bool.eqb].
    reflexivity.
  - rewrite bound_inputs. lia.
Qed.

End DbFacts.


(** ** Creation with documents *)

Module DocumentsFacts.
Import Model Routes Documents.


(** *** Objects of texts *)







Section Handler.
Variable valid_connection : string -> bool.
Variable blob_upload : string -> string -> File -> option string.
Variable extname : string -> string.
Variable JSON_parse : string -> option Client.
Variable accepts : table -> Client -> bool.



(** The creation with documents makes its checks before any upload: a
    [clientData] that does not parse (500), a missing field (400), a
    duplicate (409), a missing principal id (401) or one that parses to no
    integer (500) leave the table and the storage untouched. *)
Theorem checks_precede_uploads (env : Env) (tbl : table)
        (containerClient : option string) (user : option Auth.User.t)
        (clientData_q : option string)
        (files : option (list (doc_field * list File)))
        (uuid0 : string) (blob_uuid : doc_field -> string) (uuid1 : string)
        (now : Z) :
  (JSON_parse (JS.or_else clientData_q "{}") = None ->
   post_with_documents valid_connection blob_upload extname JSON_parse accepts
     env tbl containerClient user clientData_q files uuid0 blob_uuid uuid1 now
   = (tbl, containerClient, [], failed))
  /\ forall c,
       JSON_parse (JS.or_else clientData_q "{}") = Some c ->
       (Spec.complete c = false ->
        post_with_documents valid_connection blob_upload extname JSON_parse
          accepts env tbl containerClient user clientData_q files uuid0
          blob_uuid uuid1 now
        = (tbl, containerClient, [], reply 400 (Message false missing_fields)))
       /\ (Spec.complete c = true ->
           checkDuplicate tbl (JS.or_else (client_name c) "")
             (JS.or_else (insurance_provider c) "") = true ->
           post_with_documents valid_connection blob_upload extname JSON_parse
             accepts env tbl containerClient user clientData_q files uuid0
             blob_uuid uuid1 now
           = (tbl, containerClient, [], reply 409 (Message false
                "A client with this name and insurance provider already exists")))
       /\ (Spec.complete c = true ->
           checkDuplicate tbl (JS.or_else (client_name c) "")
             (JS.or_else (insurance_provider c) "") = false ->
           no_user_id user = true ->
           post_with_documents valid_connection blob_upload extname JSON_parse
             accepts env tbl containerClient user clientData_q files uuid0
             blob_uuid uuid1 now
           = (tbl, containerClient, [], reply 401 (Message false
                "User ID not found in authentication data")))
       /\ (Spec.complete c = true ->
           checkDuplicate tbl (JS.or_else (client_name c) "")
             (JS.or_else (insurance_provider c) "") = false ->
           no_user_id user = false ->
           JS.parseInt (user_id user) = None ->
           post_with_documents valid_connection blob_upload extname JSON_parse
             accepts env tbl containerClient user clientData_q files uuid0
             blob_uuid uuid1 now
           = (tbl, containerClient, [],
              reply 500 (Message false "Invalid sales rep ID format"))).
Proof.
  unfold post_with_documents. split; [intros ->; reflexivity|].
  intros c ->. rewrite (RoutesFacts.incomplete_iff c).
  repeat split.
  - intros ->. reflexivity.
  - intros -> ->. reflexivity.
  - intros -> -> ->. reflexivity.
  - intros -> -> -> ->. reflexivity.
Qed.




End Handler.

End DocumentsFacts.

(** ** The properties at work on the sample data *)

Module AuthChecks.
Import Auth.

Lemma no_bearer_header_is_401_witness :
  validateSalesAuth Samples.post_accepts Samples.verify Samples.env_remote
                    5000 (Some "Basic good")
  = ([], Respond 401 (Envelope false "No token provided")).
Proof.
  apply (AuthMore.no_bearer_header_is_401 Samples.post_accepts Samples.verify).
  intros h [= <-]. reflexivity.
Defined.

Lemma principal_role_is_sales_or_admin_witness :
  User.role Fixtures.user7 = "sales" \/ User.role Fixtures.user7 = "admin".
Proof.
  apply (AuthMore.principal_role_is_sales_or_admin
           Samples.post_accepts Samples.verify Samples.env_remote 5000
           (Some "Bearer good")
           [AxiosPost "http://localhost:5000/api/auth/validate" "good"]).
  reflexivity.
Defined.

Lemma other_role_is_403_witness :
  validateSalesAuth Fixtures.post_viewer Samples.verify Samples.env_remote
                    5000 (Some "Bearer view")
  = ([AxiosPost "http://localhost:5000/api/auth/validate" "view"], forbidden)
  /\ snd (validateSalesAuth Samples.post_refused Fixtures.verify_viewer
                            Samples.env_local 5000 (Some "Bearer view"))
     = forbidden.
Proof.
  split.
  - apply (proj1 (AuthMore.other_role_is_403 Fixtures.post_viewer
                    Samples.verify Samples.env_remote 5000 "Bearer view"
                    eq_refl) Fixtures.viewer); reflexivity.
  - apply (proj2 (AuthMore.other_role_is_403 Samples.post_refused
                    Fixtures.verify_viewer Samples.env_local 5000
                    "Bearer view" eq_refl) "s3cret"
                 {| userId := 9; email := "viewer@example.com";
                    role := "viewer"; exp := 2000 |});
      try reflexivity; try discriminate; try lia.
    left. reflexivity.
Defined.

Lemma local_verification_accepts_witness :
  snd (validateSalesAuth Samples.post_timed_out Samples.verify
                         Samples.env_remote 5000 (Some "Bearer good"))
  = Next Fixtures.user7
  /\ JS.parseInt (JS.toString 7) = Some 7.
Proof.
  apply (AuthMore.local_verification_accepts Samples.post_timed_out
           Samples.verify Samples.env_remote 5000 "Bearer good" "s3cret"
           (Samples.claims 2000));
    try reflexivity; try discriminate; try exact LimitsFacts.safe_7.
  - right. eexists. split; reflexivity.
  - left. reflexivity.
Defined.

Lemma no_secret_is_401_unverified_witness :
  snd (validateSalesAuth Samples.post_accepts Samples.verify
                         Fixtures.env_no_secret 5000 (Some "Bearer good"))
  = invalid_token
  /\ forall t s,
       ~ In (JwtVerify t s)
            (fst (validateSalesAuth Samples.post_accepts Samples.verify
                    Fixtures.env_no_secret 5000 (Some "Bearer good"))).
Proof.
  apply (AuthMore.no_secret_is_401_unverified Samples.post_accepts
           Samples.verify Fixtures.env_no_secret 5000 "Bearer good").
  - reflexivity.
  - reflexivity.
  - left. reflexivity.
Defined.

Lemma delegated_principal_witness :
  validateSalesAuth Samples.post_accepts Samples.verify Samples.env_remote
                    5000 (Some "Bearer good")
  = ([AxiosPost "http://localhost:5000/api/auth/validate" "good"],
     Next Fixtures.user7)
  /\ forall n, IdNum 7 = IdNum n -> JS.parseInt (id_toString (IdNum 7)) = Some n.
Proof.
  apply (AuthMore.delegated_principal Samples.post_accepts Samples.verify
           Samples.env_remote 5000 "Bearer good" Fixtures.sales_rep (IdNum 7));
    try reflexivity; try exact LimitsFacts.safe_7.
  left. reflexivity.
Defined.

Lemma unreadable_answer_witness :
  validateSalesAuth Fixtures.post_null Samples.verify Samples.env_remote
                    5000 (Some "Bearer good")
  = ([AxiosPost "http://localhost:5000/api/auth/validate" "good"],
     Respond 500 (Envelope false "Authentication service error")).
Proof.
  apply (proj2 (AuthMore.unreadable_answer Fixtures.post_null Samples.verify
                  Samples.env_remote 5000 "Bearer good" eq_refl eq_refl)).
  left. reflexivity.
Defined.

Lemma calls_carry_the_header_token_witness :
  (length (fst (validateSalesAuth Samples.post_timed_out Samples.verify
                  Samples.env_remote 5000 (Some "Bearer good"))) <= 2)%nat.
Proof.
  apply (AuthMore.calls_carry_the_header_token Samples.post_timed_out
           Samples.verify Samples.env_remote 5000 "Bearer good").
  reflexivity.
Defined.

Lemma token_is_first_word_witness :
  token_of ("Bearer " ++ "good") = "good"
  /\ token_of ("Bearer " ++ "good" ++ String " " "and more") = "good".
Proof.
  apply (AuthMore.token_is_first_word "good" "and more"). reflexivity.
Defined.

End AuthChecks.

Module ClientChecks.
Import Model Routes.

Lemma sample_times_distinct :
  Limits.distinct_times (filter (listing_where 7 None) Samples.clients).
Proof.
  repeat constructor; cbn; intros H;
    repeat (destruct H as [H|H]; try discriminate H); exact H.
Defined.

Lemma pages_concatenate_witness :
  flat_map
    (fun i => Pages.clients_of
                (getAllClientsBySalesRep Samples.clients "7"
                   (Some (Z.of_nat i)) (Some 1) None))
    (seq 1 (Z.to_nat 2))
  = Sql.order_by_desc created_at
      (filter (listing_where 7 None) Samples.clients)
  /\ forall ordered,
       Permutation (filter (listing_where 7 None) Samples.clients) ordered ->
       StronglySorted (Sql.desc created_at) ordered ->
       ordered
       = Sql.order_by_desc created_at
           (filter (listing_where 7 None) Samples.clients).
Proof.
  apply (PagesFacts.pages_concatenate Samples.clients None "7" 7 1 2);
    try reflexivity; try lia; try exact LimitsFacts.safe_7; try exact LimitsFacts.safe_1.
  exact sample_times_distinct.
Defined.



Lemma invalid_paging_is_500_witness :
  get_clients Samples.clients (Some Fixtures.user7) (Some "0") None None
  = reply 500 (Message false "Failed to get clients").
Proof.
  apply (PagesFacts.invalid_paging_is_500 Samples.clients None
           (Some Fixtures.user7) (Some "0") None).
  - reflexivity.
  - right. right. left. exists 0. split; [reflexivity | lia].
Defined.

Lemma blank_search_is_no_search_witness :
  get_clients Samples.clients (Some Fixtures.user7) None None (Some "  ")
  = get_clients Samples.clients (Some Fixtures.user7) None None None.
Proof.
  apply (PagesFacts.blank_search_is_no_search Samples.clients
           (Some Fixtures.user7) None None "  ").
  reflexivity.
Defined.

Lemma recent_is_bounded_and_ordered_witness :
  exists data,
    get_recent Samples.clients (Some Fixtures.user7) (Some "1")
    = reply 200 (Recent (Z.of_nat (length data)) data)
    /\ Z.of_nat (length data) <= 1
    /\ Z.of_nat (length data)
       = Z.min 1 (Z.of_nat (length (filter (owned_by 7) Samples.clients)))
    /\ StronglySorted (Sql.desc created_at) data
    /\ (forall r, In r data -> In r Samples.clients /\ sales_rep_id r = Some 7).
Proof.
  apply (PagesFacts.recent_is_bounded_and_ordered Samples.clients
           Fixtures.user7 (Some "1") 7 1);
    try reflexivity; try discriminate; try lia;
    try exact LimitsFacts.safe_7; try exact LimitsFacts.safe_1.
Defined.

Lemma invalid_limit_is_500_witness :
  get_recent Samples.clients (Some Fixtures.user7) (Some "-1")
  = reply 500 (Message false "Failed to get recent clients").
Proof.
  apply (PagesFacts.invalid_limit_is_500 Samples.clients Fixtures.user7
           (Some "-1")).
  - discriminate.
  - exists 7. reflexivity.
  - right. exists (-1). split; [reflexivity | lia].
Defined.

Lemma recent_is_first_page_witness :
  exists data pg,
    get_clients Samples.clients (Some Fixtures.user7) None (Some "1") None
    = reply 200 (Paged data pg)
    /\ get_recent Samples.clients (Some Fixtures.user7) (Some "1")
       = reply 200 (Recent (Z.of_nat (length data)) data)
    /\ forall ordered,
         Permutation (filter (owned_by 7) Samples.clients) ordered ->
         StronglySorted (Sql.desc created_at) ordered ->
         data = firstn (Z.to_nat 1) ordered.
Proof.
  apply (PagesFacts.recent_is_first_page Samples.clients Fixtures.user7
           (Some "1") 7 1);
    try reflexivity; try discriminate; try lia;
    try exact LimitsFacts.safe_7; try exact LimitsFacts.safe_1.
  exact sample_times_distinct.
Defined.

Lemma duplicate_is_any_row_of_the_table_witness :
  checkDuplicate Samples.clients "bolt ltd" "Test Insurance Co" = true.
Proof.
  apply (proj2 (CreationFacts.duplicate_is_any_row_of_the_table
                  Samples.clients "bolt ltd" "Test Insurance Co")).
  exists (Samples.client "C00000002" "Bolt Ltd" "Test Insurance Co" 8 200).
  split; [right; left; reflexivity | split; reflexivity].
Defined.




Lemma creation_leaves_other_listings_witness :
  getAllClientsBySalesRep
    (fst (post_client Samples.accepts_all Samples.clients
            (Some Fixtures.user7)
            (Samples.request "New Co" "Test Insurance Co") Samples.uuid 400))
    "8" (Some 1) (Some 10) None
  = getAllClientsBySalesRep Samples.clients "8" (Some 1) (Some 10) None
  /\ getClientsByCreator
       (fst (post_client Samples.accepts_all Samples.clients
               (Some Fixtures.user7)
               (Samples.request "New Co" "Test Insurance Co") Samples.uuid
               400))
       "8" (Some 10)
     = getClientsByCreator Samples.clients "8" (Some 10).
Proof.
  apply (CreationFacts.creation_leaves_other_listings Samples.accepts_all
           Samples.clients (Some Fixtures.user7)
           (Samples.request "New Co" "Test Insurance Co") Samples.uuid 400
           "8" 8);
    [reflexivity | reflexivity
     | unfold Limits.safe, Limits.MAX_SAFE_INTEGER; lia | discriminate].
Defined.


Lemma logged_body_hides_password_and_token_witness :
  ("POST" <> "GET"
   /\ exists b, Some Fixtures.login_body = Some b
                /\ Logging.truthy b = true
                /\ Logging.sanitizedBody Fixtures.login_body
                   = Logging.sanitizedBody b)
  /\ (Logging.get "password" (Logging.sanitizedBody Fixtures.login_body)
      = Some (Logging.JStr "[REDACTED]")
      \/ Logging.get "token" (Logging.sanitizedBody Fixtures.login_body)
         = Some (Logging.JStr "[REDACTED]") ->
      Logging.JStr "[REDACTED]" = Logging.JStr "[REDACTED]"
      \/ Logging.truthy (Logging.JStr "[REDACTED]") = false).
Proof.
  apply (LoggingFacts.logged_body_hides_password_and_token 0 "POST"
           "/api/auth/login" (Some Fixtures.login_body)).
  right. left. reflexivity.
Defined.

Lemma logged_body_keeps_other_properties_witness :
  Logging.get "profile" (Logging.sanitizedBody Fixtures.login_body)
  = Some (Logging.JObj [("password", Logging.JStr "inner")]).
Proof.
  rewrite (proj1 (proj2 (LoggingFacts.logged_body_keeps_other_properties
                           Fixtures.login_body "profile")));
    [reflexivity | discriminate | discriminate].
Defined.

Lemma statement_without_marker_is_sent_as_written_witness :
  fst (Db.query "SELECT * FROM clients WHERE id = @param0" ["C1"])
  = "SELECT * FROM clients WHERE id = @param0"
  /\ (Db.bound ("param" ++ JS.toString 0)
        (snd (Db.query "SELECT * FROM clients WHERE id = @param0" ["C1"]))
      = true
      <-> 0 <= 0 < Z.of_nat (length ["C1"])).
Proof.
  apply (DbFacts.statement_without_marker_is_sent_as_written
           "SELECT * FROM clients WHERE id = @param0" ["C1"] 0).
  reflexivity.
Defined.

Lemma marker_is_named_by_its_offset_witness :
  fst (Db.query ("id = " ++ String "?" "") ["C1"])
  = "id = " ++ "@param" ++ JS.toString (Z.of_nat (String.length "id = "))
            ++ Db.parameterize (Z.of_nat (String.length "id = ") + 1) ""
  /\ (Db.bound ("param" ++ JS.toString (Z.of_nat (String.length "id = ")))
        (snd (Db.query ("id = " ++ String "?" "") ["C1"])) = true
      <-> (String.length "id = " < length ["C1"])%nat).
Proof.
  apply (DbFacts.marker_is_named_by_its_offset "id = " "" ["C1"]).
  reflexivity.
Defined.

End ClientChecks.

Module DocumentChecks.
Import Model Routes Documents.

Lemma checks_precede_uploads_witness :
  post_with_documents Fixtures.any_connection Fixtures.blob_upload
    Fixtures.extname Fixtures.JSON_parse Samples.accepts_all
    Fixtures.blob_env Samples.clients (Some "customer-documents")
    (Some Fixtures.user7) None (Some Fixtures.files) Samples.uuid
    Fixtures.blob_uuid Samples.uuid 400
  = (Samples.clients, Some "customer-documents", [],
     reply 400 (Message false missing_fields)).
Proof.
  refine (proj1 (proj2 (DocumentsFacts.checks_precede_uploads
                          Fixtures.any_connection Fixtures.blob_upload
                          Fixtures.extname Fixtures.JSON_parse
                          Samples.accepts_all Fixtures.blob_env
                          Samples.clients (Some "customer-documents")
                          (Some Fixtures.user7) None (Some Fixtures.files)
                          Samples.uuid Fixtures.blob_uuid Samples.uuid 400)
                       _ eq_refl) eq_refl).
Defined.





End DocumentChecks.
